(** * Synchronisation of the [obras] table with a Coda table

    A shallow embedding of [src/main.py]: the extractor
    ([obtener_obras_orm]), the remote locator
    ([obtener_documento_id_por_nombre], [obtener_table_id]), the purger
    ([eliminar_todas_las_filas]), the batch inserter
    ([insertar_filas_en_bloques]) and the [__main__] block.

    Conventions of the model.
    - A Python exception is a value of [excepcion]; code that can raise
      returns a [resultado].
    - The remote service is a function [coda] from the number of requests
      already made and the request to the response.  Every request gets an
      HTTP response: failures of the transport itself (no connection, time
      out) are outside the model.
    - Remote code runs in the monad [M]: it threads the request counter and
      collects, in order, the events it produces (requests, sleeps, prints).
    - The database is a passive source: three lists of records.  *)

From Stdlib Require Import List String Ascii ZArith Lia Bool Arith PeanoNat.
From Stdlib Require Import DecimalString.
Import ListNotations.
Open Scope string_scope.
Open Scope list_scope.
Open Scope nat_scope.

Set Implicit Arguments.

(* ------------------------------------------------------------------ *)
(** ** Exceptions and fallible pure code *)

Inductive excepcion : Type :=
| ValueError (msg : string)
| HTTPError (status : Z)
| JSONDecodeError
| TypeError (msg : string).

Inductive resultado (A : Type) : Type :=
| Ok (a : A)
| Raise (e : excepcion).
Arguments Ok {A} a.
Arguments Raise {A} e.

Definition bind_r {A B} (r : resultado A) (k : A -> resultado B) : resultado B :=
  match r with
  | Ok a => k a
  | Raise e => Raise e
  end.

Notation "'let*' x ':=' e 'in' k" := (bind_r e (fun x => k))
  (at level 10, x name, e at level 100, k at level 200).

(** A list comprehension whose element expression can raise: the first
    exception, left to right, ends it. *)
Fixpoint mapR {A B} (f : A -> resultado B) (l : list A) : resultado (list B) :=
  match l with
  | [] => Ok []
  | x :: xs =>
      let* y := f x in
      let* ys := mapR f xs in
      Ok (y :: ys)
  end.

(* ------------------------------------------------------------------ *)
(** ** The relational schema (lines 24-47) *)

(** A calendar date, [datetime.date]. *)
Record date : Type := { d_year : nat; d_month : nat; d_day : nat }.

(** What a date column of a fetched row can hold: SQL NULL, a date, or,
    with a loosely typed store, a text. *)
Inductive celda_fecha : Type :=
| CNull
| CDate (d : date)
| CTexto (s : string).

Module Proyecto.
Record t : Type := { id : Z; nombre : option string }.
End Proyecto.

Module Responsable.
Record t : Type := { id : Z; nombre : option string; correo : option string }.
End Responsable.

Module Obra.
Record t : Type := {
  id : Z;
  nombre_obra : option string;
  proyecto_id : option Z;
  estado : option string;
  fecha_inicio : celda_fecha;
  fecha_fin : celda_fecha;
  responsable_id : option Z;
  fase : option string
}.
End Obra.

(** A database state: the rows of the three tables. *)
Record BaseDatos : Type := {
  obras : list Obra.t;
  proyectos : list Proyecto.t;
  responsables : list Responsable.t
}.

(** [id] is declared [primary_key=True] in [Proyecto] and [Responsable]:
    no two rows of a table share it. *)
Definition claves_primarias (db : BaseDatos) : Prop :=
  NoDup (map Proyecto.id (proyectos db)) /\
  NoDup (map Responsable.id (responsables db)).

(* ------------------------------------------------------------------ *)
(** ** The query (lines 56-67) *)

(** [a.join(b, on, isouter=True)]: LEFT OUTER JOIN.  Every left row is
    paired with each right row that satisfies [on]; a left row that no right
    row satisfies is kept once, with nothing on the right. *)
Definition left_outer_join {A B} (on : A -> B -> bool)
    (izq : list A) (der : list B) : list (A * option B) :=
  flat_map (fun a =>
              match filter (on a) der with
              | [] => [(a, None)]
              | ms => map (fun b => (a, Some b)) ms
              end) izq.

(** [Obra.proyecto_id == Proyecto.id]; a NULL foreign key equals nothing. *)
Definition on_proyecto (o : Obra.t) (p : Proyecto.t) : bool :=
  match Obra.proyecto_id o with
  | Some k => Z.eqb k (Proyecto.id p)
  | None => false
  end.

(** [Obra.responsable_id == Responsable.id], on the rows of the first join. *)
Definition on_responsable (op : Obra.t * option Proyecto.t) (r : Responsable.t) : bool :=
  match Obra.responsable_id (fst op) with
  | Some k => Z.eqb k (Responsable.id r)
  | None => false
  end.

(** One fetched row: the eight labelled columns of the query. *)
Record FilaConsulta : Type := {
  q_nombre : option string;        (* "Nombre de la obra" *)
  q_proyecto : option string;      (* "Proyecto" *)
  q_estado : option string;        (* "Estado" *)
  q_inicio : celda_fecha;          (* "Fecha de inicio" *)
  q_fin : celda_fecha;             (* "Fecha de finalización" *)
  q_responsable : option string;   (* "Responsable" *)
  q_correo : option string;        (* "Correo" *)
  q_fase : option string           (* "Fase" *)
}.

(** A column of an outer-joined table is NULL where there is no match. *)
Definition columna_opt {B C} (f : B -> option C) (b : option B) : option C :=
  match b with
  | Some x => f x
  | None => None
  end.

Definition proyectar (t : Obra.t * option Proyecto.t * option Responsable.t) : FilaConsulta :=
  let '(o, p, r) := t in
  {| q_nombre := Obra.nombre_obra o;
     q_proyecto := columna_opt Proyecto.nombre p;
     q_estado := Obra.estado o;
     q_inicio := Obra.fecha_inicio o;
     q_fin := Obra.fecha_fin o;
     q_responsable := columna_opt Responsable.nombre r;
     q_correo := columna_opt Responsable.correo r;
     q_fase := Obra.fase o |}.

(** [session.query(...).join(Proyecto, ...).join(Responsable, ...).all()] *)
Definition consulta (db : BaseDatos) : list FilaConsulta :=
  map proyectar
    (left_outer_join on_responsable
       (left_outer_join on_proyecto (obras db) (proyectos db))
       (responsables db)).

(* ------------------------------------------------------------------ *)
(** ** The data frame (lines 70-83) *)

(** A [pandas.Timestamp].  Only its calendar date is ever read (by
    [.dt.year] and by [strftime("%Y-%m-%d")]), so the time of day is not
    kept. *)
Record Timestamp : Type := { year : nat; month : nat; day : nat }.

(** The [errors] argument of [pd.to_datetime]. *)
Inductive errors_mode : Type := errors_raise | errors_coerce.

(** A row of the data frame the extractor returns.  The columns are typed
    as pandas types them: text columns hold a text or None, the two
    datetime64 columns a Timestamp or NaT ([None] here), and "Año" a
    number or NaN ([None] here). *)
Record SyncRow : Type := {
  s_nombre : option string;
  s_proyecto : option string;
  s_estado : option string;
  s_inicio : option Timestamp;
  s_fin : option Timestamp;
  s_responsable : option string;
  s_correo : option string;
  s_fase : option string;
  s_anio : option nat
}.

Definition DataFrame : Type := list SyncRow.

Section Extractor.

(** pandas' conversion of one value that is not null to a Timestamp, in a
    column (pandas may infer the format from the column as a whole); [None]
    when the value cannot be converted.  It is a parameter: the formats
    pandas accepts are not part of this program. *)
Variable parse_datetime : list celda_fecha -> celda_fecha -> option Timestamp.

Definition to_datetime_elem (errors : errors_mode) (col : list celda_fecha)
    (c : celda_fecha) : resultado (option Timestamp) :=
  match c with
  | CNull => Ok None
  | _ =>
      match parse_datetime col c with
      | Some t => Ok (Some t)
      | None =>
          match errors with
          | errors_coerce => Ok None
          | errors_raise => Raise (ValueError "Unknown datetime string format")
          end
      end
  end.

(** [pd.to_datetime(col, errors=...)] on a column. *)
Definition to_datetime (errors : errors_mode) (col : list celda_fecha)
  : resultado (list (option Timestamp)) :=
  mapR (to_datetime_elem errors col) col.

(** [col.dt.year] on a datetime64 column: NaN where the value is NaT. *)
Definition dt_year (col : list (option Timestamp)) : list (option nat) :=
  map (option_map year) col.

(** The data frame after the three column assignments: row [i] takes its
    dates and its year from position [i] of the new columns. *)
Fixpoint asignar_columnas (filas : list FilaConsulta)
    (inicio fin : list (option Timestamp)) (anio : list (option nat)) : DataFrame :=
  match filas, inicio, fin, anio with
  | q :: filas', i :: inicio', f :: fin', a :: anio' =>
      {| s_nombre := q_nombre q;
         s_proyecto := q_proyecto q;
         s_estado := q_estado q;
         s_inicio := i;
         s_fin := f;
         s_responsable := q_responsable q;
         s_correo := q_correo q;
         s_fase := q_fase q;
         s_anio := a |} :: asignar_columnas filas' inicio' fin' anio'
  | _, _, _, _ => []
  end.

Definition obtener_obras_orm (db : BaseDatos) : resultado DataFrame :=
  let obras := consulta db in
  let* inicio := to_datetime errors_coerce (map q_inicio obras) in
  let* fin := to_datetime errors_coerce (map q_fin obras) in
  let anio := dt_year inicio in
  Ok (asignar_columnas obras inicio fin anio).

End Extractor.

(* ------------------------------------------------------------------ *)
(** ** Rows as dictionaries (line 166) *)

(** A value of a row once it is a labelled Series or a dict: Python's
    [None], the float NaN, pandas' NaT, a text, a number or a Timestamp. *)
Inductive valor : Type :=
| VNone
| VNaN
| VNaT
| VStr (s : string)
| VNum (n : nat)
| VTimestamp (t : Timestamp).

(** A dict (or a labelled Series) with its items in order. *)
Definition fila : Type := list (string * valor).

Definition de_texto (o : option string) : valor :=
  match o with Some s => VStr s | None => VNone end.

Definition de_timestamp (o : option Timestamp) : valor :=
  match o with Some t => VTimestamp t | None => VNaT end.

Definition de_numero (o : option nat) : valor :=
  match o with Some n => VNum n | None => VNaN end.

(** The Series [df.iterrows()] yields for a row: the nine columns in the
    order of the frame. *)
Definition iterrows_fila (s : SyncRow) : fila :=
  [ ("Nombre de la obra", de_texto (s_nombre s));
    ("Proyecto", de_texto (s_proyecto s));
    ("Estado", de_texto (s_estado s));
    ("Fecha de inicio", de_timestamp (s_inicio s));
    ("Fecha de finalización", de_timestamp (s_fin s));
    ("Responsable", de_texto (s_responsable s));
    ("Correo", de_texto (s_correo s));
    ("Fase", de_texto (s_fase s));
    ("Año", de_numero (s_anio s)) ].

(** [pd.isna]. *)
Definition isna (v : valor) : bool :=
  match v with
  | VNone | VNaN | VNaT => true
  | _ => false
  end.

(** [row.dropna()]. *)
Definition dropna (f : fila) : fila :=
  filter (fun cv => negb (isna (snd cv))) f.

(** [[row.dropna().to_dict() for _, row in df_obras.iterrows()]] *)
Definition filas_dicts (df : DataFrame) : list fila :=
  map (fun row => dropna (iterrows_fila row)) df.

(** [f.get(k, default)] *)
Fixpoint dict_get (f : fila) (k : string) (default : valor) : valor :=
  match f with
  | [] => default
  | (k', v) :: f' => if String.eqb k' k then v else dict_get f' k default
  end.

(* ------------------------------------------------------------------ *)
(** ** The wire format (lines 128-134) *)

Record celda : Type := { column : string; value : valor }.

Record fila_wire : Type := { cells : list celda }.

(** A number in decimal, padded with zeros on the left to [ancho] digits. *)
Fixpoint ceros (n : nat) : string :=
  match n with
  | 0 => EmptyString
  | S n' => ("0" ++ ceros n')%string
  end.

Definition decimal (ancho n : nat) : string :=
  let s := NilEmpty.string_of_uint (Nat.to_uint n) in
  (ceros (ancho - String.length s) ++ s)%string.

(** [val.strftime("%Y-%m-%d")] *)
Definition strftime_ymd (t : Timestamp) : string :=
  (decimal 4 (year t) ++ "-" ++ decimal 2 (month t) ++ "-" ++ decimal 2 (day t))%string.

(** The [value] of a cell.  A Timestamp is an instance of [datetime] and is
    formatted; so is NaT, whose [strftime] raises; every other value passes
    through unchanged. *)
Definition serializar_valor (val : valor) : resultado valor :=
  match val with
  | VTimestamp t => Ok (VStr (strftime_ymd t))
  | VNaT => Raise (ValueError "NaTType does not support strftime")
  | _ => Ok val
  end.

Definition serializar_fila (f : fila) : resultado fila_wire :=
  let* cs := mapR (fun cv =>
                     let* v := serializar_valor (snd cv) in
                     Ok {| column := fst cv; value := v |}) f in
  Ok {| cells := cs |}.

(* ------------------------------------------------------------------ *)
(** ** Python's [range] and slices *)

(** [range(i, stop, step)] for [step > 0]: [i], [i + step], ... while below
    [stop].  [fuel] bounds the number of elements. *)
Fixpoint range_desde (fuel i stop step : nat) : list nat :=
  match fuel with
  | 0 => []
  | S fuel' =>
      if i <? stop then i :: range_desde fuel' (i + step) stop step else []
  end.

(** No more than [stop] elements are below [stop] when [step > 0]. *)
Definition range (start stop step : nat) : list nat :=
  range_desde stop start stop step.

(** [l[i:j]]: out of range bounds are clipped. *)
Definition slice {A} (l : list A) (i j : nat) : list A :=
  firstn (j - i) (skipn i l).

(* ------------------------------------------------------------------ *)
(** ** The remote service *)

Inductive metodo : Type := GET | DELETE | POST.

(** The [json=] argument of a request. *)
Inductive json_peticion : Type :=
| SinJson
| JsonRowIds (rowIds : list string)       (* {"rowIds": [...]} *)
| JsonRows (rows : list fila_wire).       (* {"rows": [...]} *)

Record peticion : Type := {
  p_metodo : metodo;
  p_url : string;
  p_json : json_peticion
}.

(** An element of the "items" of a listing: a document, a table or a row. *)
Record item : Type := { item_id : string; item_name : string }.

(** The body of a response: not JSON, or an object whose "items" key may be
    missing. *)
Inductive json_respuesta : Type :=
| NoEsJson
| Objeto (items : option (list item)).

Record respuesta : Type := {
  status_code : Z;
  cuerpo : json_respuesta
}.

(** What the program prints, one constructor per [print] of the source. *)
Inductive mensaje : Type :=
| MsgBuscandoDocumento
| MsgDocumentoEncontrado (nombre id : string)
| MsgBuscandoTabla
| MsgTablaEncontrada (nombre id : string)
| MsgEliminando
| MsgFilasEliminadas (n : nat)
| MsgErrorEliminar (status : Z)
| MsgFilasInsertadas (n : nat) (nombres : string)
| MsgLimiteAlcanzado (espera : nat)
| MsgErrorInsertar (status : Z)
| MsgObrasASincronizar (n : nat).

Inductive evento : Type :=
| EvPeticion (p : peticion)
| EvSleep (segundos : nat)
| EvPrint (m : mensaje).

(** A computation: from the number of requests made so far to its outcome,
    the new number of requests and the events produced, oldest first. *)
Definition M (A : Type) : Type := nat -> resultado A * nat * list evento.

Definition ret {A} (a : A) : M A := fun n => (Ok a, n, []).

Definition bind {A B} (m : M A) (k : A -> M B) : M B :=
  fun n =>
    match m n with
    | (Ok a, n', ev) =>
        let '(r, n'', ev') := k a n' in (r, n'', ev ++ ev')
    | (Raise e, n', ev) => (Raise e, n', ev)
    end.

Notation "x <- m ;; k" := (bind m (fun x => k))
  (at level 61, m at next level, right associativity).
Notation "m ;; k" := (bind m (fun _ => k))
  (at level 61, right associativity).

Definition raise {A} (e : excepcion) : M A := fun n => (Raise e, n, []).

Definition lift {A} (r : resultado A) : M A := fun n => (r, n, []).

Definition print (m : mensaje) : M unit := fun n => (Ok tt, n, [EvPrint m]).

(** [time.sleep] *)
Definition sleep (segundos : nat) : M unit := fun n => (Ok tt, n, [EvSleep segundos]).

(** A [for] loop whose body returns nothing. *)
Fixpoint por_cada {A} (l : list A) (cuerpo : A -> M unit) : M unit :=
  match l with
  | [] => ret tt
  | x :: l' => cuerpo x ;; por_cada l' cuerpo
  end.

Definition es_peticion (m : metodo) (e : evento) : bool :=
  match e with
  | EvPeticion p =>
      match p_metodo p, m with
      | GET, GET | DELETE, DELETE | POST, POST => true
      | _, _ => false
      end
  | _ => false
  end.

(** The calls that change the remote table. *)
Definition es_mutacion (e : evento) : bool :=
  es_peticion DELETE e || es_peticion POST e.

(** No event of the list is a DELETE or a POST. *)
Definition sin_mutaciones (ev : list evento) : bool :=
  forallb (fun e => negb (es_mutacion e)) ev.

(** The seconds slept, in total. *)
Fixpoint espera_total (ev : list evento) : nat :=
  match ev with
  | [] => 0
  | EvSleep s :: ev' => s + espera_total ev'
  | _ :: ev' => espera_total ev'
  end.

(** The sleeps, in order. *)
Fixpoint esperas (ev : list evento) : list nat :=
  match ev with
  | [] => []
  | EvSleep s :: ev' => s :: esperas ev'
  | _ :: ev' => esperas ev'
  end.

(** The row ids of the DELETE requests, in order. *)
Fixpoint lotes_eliminados (ev : list evento) : list (list string) :=
  match ev with
  | [] => []
  | EvPeticion {| p_metodo := DELETE; p_json := JsonRowIds ids |} :: ev' =>
      ids :: lotes_eliminados ev'
  | _ :: ev' => lotes_eliminados ev'
  end.

(** The rows of the POST requests, in order. *)
Fixpoint lotes_subidos (ev : list evento) : list (list fila_wire) :=
  match ev with
  | [] => []
  | EvPeticion {| p_metodo := POST; p_json := JsonRows rows |} :: ev' =>
      rows :: lotes_subidos ev'
  | _ :: ev' => lotes_subidos ev'
  end.

Definition url_docs : string := "https://coda.io/apis/v1/docs".

Definition url_tables (doc_id : string) : string :=
  ("https://coda.io/apis/v1/docs/" ++ doc_id ++ "/tables")%string.

Definition url_rows (doc_id table_id : string) : string :=
  ("https://coda.io/apis/v1/docs/" ++ doc_id ++ "/tables/" ++ table_id ++ "/rows")%string.

(** [', '.join(nombres)]: every element must be a text. *)
Definition texto_de (v : valor) : resultado string :=
  match v with
  | VStr s => Ok s
  | _ => Raise (TypeError "sequence item: expected str instance")
  end.

Definition join_coma (l : list valor) : resultado string :=
  let* textos := mapR texto_de l in
  Ok (String.concat ", " textos).

Section Remoto.

(** The service: the response to the [n]-th request of the run. *)
Variable coda : nat -> peticion -> respuesta.

Definition requests (m : metodo) (url : string) (json : json_peticion) : M respuesta :=
  fun n =>
    let p := {| p_metodo := m; p_url := url; p_json := json |} in
    (Ok (coda n p), S n, [EvPeticion p]).

(** [r.raise_for_status()]: raises on a 4xx or 5xx status. *)
Definition raise_for_status (r : respuesta) : M unit :=
  if (400 <=? status_code r)%Z && (status_code r <? 600)%Z
  then raise (HTTPError (status_code r))
  else ret tt.

(** [r.json().get("items", [])] *)
Definition json_items (r : respuesta) : M (list item) :=
  match cuerpo r with
  | NoEsJson => raise JSONDecodeError
  | Objeto (Some items) => ret items
  | Objeto None => ret []
  end.

(** *** The locator (lines 87-109) *)

(** The loop over [documentos], and the [raise] after it. *)
Fixpoint buscar_documento (nombre : string) (documentos : list item) : M string :=
  match documentos with
  | [] => raise (ValueError ("No se encontró el documento con nombre '" ++ nombre ++ "'")%string)
  | doc :: resto =>
      if String.eqb (item_name doc) nombre
      then print (MsgDocumentoEncontrado nombre (item_id doc)) ;; ret (item_id doc)
      else buscar_documento nombre resto
  end.

Definition obtener_documento_id_por_nombre (nombre : string) : M string :=
  print MsgBuscandoDocumento ;;
  r <- requests GET url_docs SinJson ;;
  raise_for_status r ;;
  documentos <- json_items r ;;
  buscar_documento nombre documentos.

Fixpoint buscar_tabla (nombre_tabla : string) (tablas : list item) : M string :=
  match tablas with
  | [] => raise (ValueError ("No se encontró la tabla '" ++ nombre_tabla ++ "' en el documento.")%string)
  | tabla :: resto =>
      if String.eqb (item_name tabla) nombre_tabla
      then print (MsgTablaEncontrada nombre_tabla (item_id tabla)) ;; ret (item_id tabla)
      else buscar_tabla nombre_tabla resto
  end.

Definition obtener_table_id (doc_id nombre_tabla : string) : M string :=
  print MsgBuscandoTabla ;;
  r <- requests GET (url_tables doc_id) SinJson ;;
  raise_for_status r ;;
  tablas <- json_items r ;;
  buscar_tabla nombre_tabla tablas.

(** *** The purger (lines 111-125) *)

Definition eliminar_lote (doc_id table_id : string) (ids : list string) (i : nat) : M unit :=
  let batch := slice ids i (i + 50) in
  r <- requests DELETE (url_rows doc_id table_id) (JsonRowIds batch) ;;
  if (status_code r =? 202)%Z
  then print (MsgFilasEliminadas (List.length batch))
  else print (MsgErrorEliminar (status_code r)).

Definition eliminar_todas_las_filas (doc_id table_id : string) : M unit :=
  print MsgEliminando ;;
  r <- requests GET (url_rows doc_id table_id) SinJson ;;
  raise_for_status r ;;
  rows <- json_items r ;;
  let ids := map item_id rows in
  por_cada (range 0 (List.length ids) 50) (eliminar_lote doc_id table_id ids).

(** *** The batch inserter (lines 127-152) *)

(** The loop [for intento in range(max_reintentos)] on the attempts that
    remain; [break] ends it. *)
Fixpoint bucle_reintentos (doc_id table_id : string) (batch : list fila)
    (payload : list fila_wire) (intentos : list nat) : M unit :=
  match intentos with
  | [] => ret tt
  | intento :: resto =>
      r <- requests POST (url_rows doc_id table_id) (JsonRows payload) ;;
      if (status_code r =? 202)%Z then
        let nombres := map (fun f => dict_get f "Nombre de la obra" (VStr "Sin nombre")) batch in
        unidos <- lift (join_coma nombres) ;;
        print (MsgFilasInsertadas (List.length batch) unidos)
      else if (status_code r =? 429)%Z then
        let espera := 2 ^ intento in
        print (MsgLimiteAlcanzado espera) ;;
        sleep espera ;;
        bucle_reintentos doc_id table_id batch payload resto
      else
        print (MsgErrorInsertar (status_code r))
  end.

(** The body of the loop over the batches. *)
Definition insertar_lote (doc_id table_id : string) (filas : list fila)
    (batch_size max_reintentos : nat) (i : nat) : M unit :=
  let batch := slice filas i (i + batch_size) in
  payload <- lift (mapR serializar_fila batch) ;;
  bucle_reintentos doc_id table_id batch payload (range 0 max_reintentos 1).

(** [range(0, len(filas), 0)] raises. *)
Definition insertar_filas_en_bloques (doc_id table_id : string) (filas : list fila)
    (batch_size max_reintentos : nat) : M unit :=
  if batch_size =? 0
  then raise (ValueError "range() arg 3 must not be zero")
  else por_cada (range 0 (List.length filas) batch_size)
                (insertar_lote doc_id table_id filas batch_size max_reintentos).

(** *** The [__main__] block (lines 156-169) *)

Definition main (parse_datetime : list celda_fecha -> celda_fecha -> option Timestamp)
    (db : BaseDatos)
    (nombre_documento nombre_tabla : string) : M unit :=
  doc_id <- obtener_documento_id_por_nombre nombre_documento ;;
  table_id <- obtener_table_id doc_id nombre_tabla ;;
  df_obras <- lift (obtener_obras_orm parse_datetime db) ;;
  print (MsgObrasASincronizar (List.length df_obras)) ;;
  let filas_dicts := filas_dicts df_obras in
  eliminar_todas_las_filas doc_id table_id ;;
  insertar_filas_en_bloques doc_id table_id filas_dicts 10 5.

End Remoto.

(* ------------------------------------------------------------------ *)
(** ** Vocabulary of the statements *)

(** Division rounded up. *)
Definition ceil_div (n k : nat) : nat := (n + k - 1) / k.

(** What [pd.to_datetime(..., errors="coerce")] leaves in a cell. *)
Definition coerce (parse : celda_fecha -> option Timestamp)
    (c : celda_fecha) : option Timestamp :=
  match c with
  | CNull => None
  | _ => parse c
  end.

(** The row of the data frame that a fetched row becomes, given the
    conversions of its two date columns. *)
Definition fila_sync (parse_inicio parse_fin : celda_fecha -> option Timestamp)
    (q : FilaConsulta) : SyncRow :=
  {| s_nombre := q_nombre q;
     s_proyecto := q_proyecto q;
     s_estado := q_estado q;
     s_inicio := coerce parse_inicio (q_inicio q);
     s_fin := coerce parse_fin (q_fin q);
     s_responsable := q_responsable q;
     s_correo := q_correo q;
     s_fase := q_fase q;
     s_anio := option_map year (coerce parse_inicio (q_inicio q)) |}.

(** The label of a field, when the field has a value. *)
Definition etiqueta {A} (campo : option A) (nombre : string) : list string :=
  match campo with
  | Some _ => [nombre]
  | None => []
  end.

(** The labels of the fields of a row that have a value, in column order. *)
Definition campos_presentes (s : SyncRow) : list string :=
  etiqueta (s_nombre s) "Nombre de la obra" ++
  etiqueta (s_proyecto s) "Proyecto" ++
  etiqueta (s_estado s) "Estado" ++
  etiqueta (s_inicio s) "Fecha de inicio" ++
  etiqueta (s_fin s) "Fecha de finalización" ++
  etiqueta (s_responsable s) "Responsable" ++
  etiqueta (s_correo s) "Correo" ++
  etiqueta (s_fase s) "Fase" ++
  etiqueta (s_anio s) "Año".

(** A row with a name and a status and nothing else. *)
Definition solo_nombre_y_estado (nombre estado : string) : SyncRow :=
  {| s_nombre := Some nombre;
     s_proyecto := None;
     s_estado := Some estado;
     s_inicio := None;
     s_fin := None;
     s_responsable := None;
     s_correo := None;
     s_fase := None;
     s_anio := None |}.

(** The wire row of a dict that holds no NaT. *)
Definition wire_de (f : fila) : fila_wire :=
  {| cells := map (fun cv =>
                     {| column := fst cv;
                        value := match snd cv with
                                 | VTimestamp t => VStr (strftime_ymd t)
                                 | v => v
                                 end |}) f |}.

(** A dict as [__main__] builds them: no null value, and a name, if there
    is one, that is a text. *)
Definition fila_limpia (f : fila) : Prop :=
  Forall (fun cv => isna (snd cv) = false) f /\
  exists t, dict_get f "Nombre de la obra" (VStr "Sin nombre") = VStr t.

(** The upload request of a payload. *)
Definition peticion_post (doc_id table_id : string) (payload : list fila_wire) : peticion :=
  {| p_metodo := POST; p_url := url_rows doc_id table_id; p_json := JsonRows payload |}.

(** The upload request of the batch that starts at row [i]. *)
Definition peticion_lote (doc_id table_id : string) (filas : list fila)
    (batch_size i : nat) : peticion :=
  peticion_post doc_id table_id (map wire_de (slice filas i (i + batch_size))).

(** The events of [k] attempts answered 429, from attempt [intento] on. *)
Fixpoint intentos_limitados (p : peticion) (intento k : nat) : list evento :=
  match k with
  | 0 => []
  | S k' =>
      EvPeticion p :: EvPrint (MsgLimiteAlcanzado (2 ^ intento))
        :: EvSleep (2 ^ intento) :: intentos_limitados p (S intento) k'
  end.

Definition peticion_docs : peticion :=
  {| p_metodo := GET; p_url := url_docs; p_json := SinJson |}.

Definition peticion_tables (doc_id : string) : peticion :=
  {| p_metodo := GET; p_url := url_tables doc_id; p_json := SinJson |}.

Definition peticion_rows (doc_id table_id : string) : peticion :=
  {| p_metodo := GET; p_url := url_rows doc_id table_id; p_json := SinJson |}.

(** A listing that was answered without an error status, with these
    items. *)
Definition lista (r : respuesta) (items : list item) : Prop :=
  ((400 <=? status_code r)%Z && (status_code r <? 600)%Z = false) /\
  (cuerpo r = Objeto (Some items) \/ (cuerpo r = Objeto None /\ items = [])).

(** No item bears the name, compared exactly. *)
Definition sin_coincidencia (nombre : string) (items : list item) : bool :=
  forallb (fun it => negb (String.eqb (item_name it) nombre)) items.

(* ------------------------------------------------------------------ *)
(** ** Instances for the examples *)

Definition digito (c : ascii) : option nat :=
  let n := nat_of_ascii c in
  if (48 <=? n) && (n <=? 57) then Some (n - 48) else None.

Definition numero (cs : list ascii) : option nat :=
  fold_left (fun acc c =>
               match acc, digito c with
               | Some a, Some d => Some (10 * a + d)
               | _, _ => None
               end) cs (Some 0).

Definition bisiesto (y : nat) : bool :=
  ((y mod 4 =? 0) && negb (y mod 100 =? 0)) || (y mod 400 =? 0).

Definition dias_del_mes (y m : nat) : nat :=
  match m with
  | 2 => if bisiesto y then 29 else 28
  | 4 | 6 | 9 | 11 => 30
  | _ => 31
  end.

(** A converter that takes dates and texts of the form YYYY-MM-DD. *)
Definition parse_iso (c : celda_fecha) : option Timestamp :=
  match c with
  | CNull => None
  | CDate d => Some {| year := d_year d; month := d_month d; day := d_day d |}
  | CTexto s =>
      match list_ascii_of_string s with
      | [y1; y2; y3; y4; g1; m1; m2; g2; d1; d2] =>
          if Ascii.eqb g1 "-" && Ascii.eqb g2 "-" then
            match numero [y1; y2; y3; y4], numero [m1; m2], numero [d1; d2] with
            | Some y, Some m, Some d =>
                if (1 <=? m) && (m <=? 12) && (1 <=? d) && (d <=? dias_del_mes y m)
                then Some {| year := y; month := m; day := d |}
                else None
            | _, _, _ => None
            end
          else None
      | _ => None
      end
  end.

(** One instance of the parameter [parse_datetime]: the same conversion in
    every column. *)
Definition parse_datetime_iso (col : list celda_fecha) (c : celda_fecha)
  : option Timestamp :=
  parse_iso c.

Definition obra_ejemplo (k : Z) (inicio : celda_fecha) (proyecto : option Z) : Obra.t :=
  {| Obra.id := k;
     Obra.nombre_obra := Some "Puente";
     Obra.proyecto_id := proyecto;
     Obra.estado := Some "Activa";
     Obra.fecha_inicio := inicio;
     Obra.fecha_fin := CNull;
     Obra.responsable_id := None;
     Obra.fase := None |}.

(** Three works: one with a date that is no date and a project, one with a
    date and a project that does not exist, one without either. *)
Definition db_ejemplo : BaseDatos :=
  {| obras := [ obra_ejemplo 1 (CTexto "not-a-date") (Some 7%Z);
                obra_ejemplo 2 (CTexto "2024-03-15") (Some 9%Z);
                obra_ejemplo 3 CNull None ];
     proyectos := [ {| Proyecto.id := 7; Proyecto.nombre := Some "Norte" |};
                    {| Proyecto.id := 8; Proyecto.nombre := None |} ];
     responsables := [ {| Responsable.id := 1; Responsable.nombre := Some "Ana";
                          Responsable.correo := None |} ] |}.

(** [n] rows with a name and a status. *)
Definition df_ejemplo (n : nat) : DataFrame :=
  repeat (solo_nombre_y_estado "Puente" "Activa") n.

Definition items_ejemplo (n : nat) : list item :=
  map (fun k => {| item_id := decimal 1 k; item_name := "fila" |}) (seq 0 n).

(** A service that answers every request with the same status and items. *)
Definition coda_fijo (status : Z) (items : list item) : nat -> peticion -> respuesta :=
  fun _ _ => {| status_code := status; cuerpo := Objeto (Some items) |}.

(** A service that answers 429 to the requests [desde], ..., [desde + k - 1]
    and 202 to the others. *)
Definition coda_limitado (desde k : nat) : nat -> peticion -> respuesta :=
  fun n _ =>
    {| status_code := if (desde <=? n) && (n <? desde + k) then 429%Z else 202%Z;
       cuerpo := Objeto None |}.

(** A service with two documents called "Obras" and, in each document, two
    tables called "Avance". *)
Definition coda_homonimos : nat -> peticion -> respuesta :=
  fun _ p =>
    {| status_code := 200;
       cuerpo :=
         if String.eqb (p_url p) url_docs
         then Objeto (Some [ {| item_id := "d0"; item_name := "obras" |};
                             {| item_id := "d1"; item_name := "Obras" |};
                             {| item_id := "d2"; item_name := "Obras" |} ])
         else Objeto (Some [ {| item_id := "t1"; item_name := "Avance" |};
                             {| item_id := "t2"; item_name := "Avance" |} ]) |}.

(* ------------------------------------------------------------------ *)
(** ** Vocabulary of the further properties *)




(** The name the message of the inserted rows shows for a row. *)
Definition nombre_o_defecto (s : SyncRow) : string :=
  match s_nombre s with
  | Some t => t
  | None => "Sin nombre"
  end.

(** The rows the messages of the purger report as deleted. *)
Fixpoint filas_eliminadas (ev : list evento) : nat :=
  match ev with
  | [] => 0
  | EvPrint (MsgFilasEliminadas k) :: ev' => k + filas_eliminadas ev'
  | _ :: ev' => filas_eliminadas ev'
  end.

(** No event of the list is a request with this method. *)
Definition sin_peticion (m : metodo) (ev : list evento) : bool :=
  forallb (fun e => negb (es_peticion m e)) ev.

(** Every event a computation produces, from any state, satisfies [P]. *)
Definition solo {A} (P : evento -> bool) (m : M A) : Prop :=
  forall n, forallb P (snd (m n)) = true.

(** The events of a computation are some events without POST followed by
    some events without DELETE. *)
Definition purga_antes_de_insercion {A} (m : M A) : Prop :=
  forall n, exists a b,
    snd (m n) = a ++ b /\ sin_peticion POST a = true /\ sin_peticion DELETE b = true.

(** The status is one on which [raise_for_status] raises. *)
Definition es_error_http (status : Z) : bool :=
  (400 <=? status)%Z && (status <? 600)%Z.

(** A service like [coda_homonimos] that answers 500 to the listing of the
    rows of table "t1" of document "d1". *)
Definition coda_sin_filas : nat -> peticion -> respuesta :=
  fun n p =>
    {| status_code := if String.eqb (p_url p) (url_rows "d1" "t1") then 500%Z else 200%Z;
       cuerpo := cuerpo (coda_homonimos n p) |}.

(** A service that lists these items and answers 429 to everything else. *)
Definition coda_solo_lista (items : list item) : nat -> peticion -> respuesta :=
  fun _ p =>
    {| status_code := match p_metodo p with GET => 200%Z | _ => 429%Z end;
       cuerpo := Objeto (Some items) |}.

(** A service that answers 429 to its first [k] requests and 500 to the
    others. *)
Definition coda_rechaza (k : nat) : nat -> peticion -> respuesta :=
  fun n _ =>
    {| status_code := if n <? k then 429%Z else 500%Z; cuerpo := Objeto None |}.

(** A service whose answers are not JSON. *)
Definition coda_no_json : nat -> peticion -> respuesta :=
  fun _ _ => {| status_code := 200; cuerpo := NoEsJson |}.

(** One row without any value, between two rows with a name and a status. *)
Definition df_con_vacia : DataFrame :=
  [ solo_nombre_y_estado "Puente" "Activa";
    {| s_nombre := None; s_proyecto := None; s_estado := None; s_inicio := None;
       s_fin := None; s_responsable := None; s_correo := None; s_fase := None;
       s_anio := None |};
    solo_nombre_y_estado "Canal" "Pausada" ].

(* ------------------------------------------------------------------ *)
(** * Properties *)

Unset Implicit Arguments.

(** ** Fallible list comprehensions *)

Lemma mapR_Ok A B (f : A -> resultado B) (g : A -> B) (l : list A) :
  (forall x, In x l -> f x = Ok (g x)) -> mapR f l = Ok (map g l).
Proof.
  induction l as [|x xs IH]; intros Hf; simpl.
  - reflexivity.
  - rewrite (Hf x (or_introl eq_refl)). simpl.
    rewrite IH by (intros y Hy; apply Hf; right; exact Hy).
    reflexivity.
Qed.

(** ** The extractor *)

Section ExtractorProps.

Variable parse_datetime : list celda_fecha -> celda_fecha -> option Timestamp.

Lemma to_datetime_elem_coerce (col : list celda_fecha) (c : celda_fecha) :
  to_datetime_elem parse_datetime errors_coerce col c
  = Ok (coerce (parse_datetime col) c).
Proof.
  destruct c; simpl; try reflexivity;
    match goal with |- context [parse_datetime col ?x] => destruct (parse_datetime col x) end;
    reflexivity.
Qed.

Lemma to_datetime_coerce (col : list celda_fecha) :
  to_datetime parse_datetime errors_coerce col
  = Ok (map (coerce (parse_datetime col)) col).
Proof.
  unfold to_datetime. apply mapR_Ok. intros c _. apply to_datetime_elem_coerce.
Qed.

Lemma asignar_columnas_map (parse_inicio parse_fin : celda_fecha -> option Timestamp)
    (qs : list FilaConsulta) :
  asignar_columnas qs
    (map (coerce parse_inicio) (map q_inicio qs))
    (map (coerce parse_fin) (map q_fin qs))
    (dt_year (map (coerce parse_inicio) (map q_inicio qs)))
  = map (fila_sync parse_inicio parse_fin) qs.
Proof.
  unfold dt_year. induction qs as [|q qs IH]; simpl.
  - reflexivity.
  - rewrite IH. reflexivity.
Qed.

(** The extractor never raises: it returns one row per fetched row. *)
Lemma obtener_obras_orm_filas (db : BaseDatos) :
  obtener_obras_orm parse_datetime db
  = Ok (map (fila_sync (parse_datetime (map q_inicio (consulta db)))
                       (parse_datetime (map q_fin (consulta db))))
            (consulta db)).
Proof.
  unfold obtener_obras_orm.
  rewrite to_datetime_coerce. simpl.
  rewrite to_datetime_coerce. simpl.
  rewrite asignar_columnas_map. reflexivity.
Qed.

End ExtractorProps.

(** ** The outer joins *)

(** At most one row of a table with a key column has a given key. *)
Lemma filter_clave_unica B (key : B -> Z) (f : B -> bool) (k : Z) (l : list B) :
  (forall b, f b = true -> key b = k) ->
  NoDup (map key l) ->
  List.length (filter f l) <= 1.
Proof.
  intros Hf. induction l as [|x l IH]; simpl; intros Hnd.
  - lia.
  - inversion Hnd as [|? ? Hnotin Hnd']; subst.
    destruct (f x) eqn:Hx.
    + destruct (filter f l) as [|y ys] eqn:Hfl; simpl; [lia|].
      exfalso. apply Hnotin.
      assert (Hy : In y (filter f l)) by (rewrite Hfl; left; reflexivity).
      apply filter_In in Hy. destruct Hy as [Hin Hfy].
      rewrite (Hf x Hx), <- (Hf y Hfy). apply in_map. exact Hin.
    + apply IH. exact Hnd'.
Qed.

Lemma flat_map_al_menos_uno A B (f : A -> list B) (l : list A) :
  (forall a, 1 <= List.length (f a)) ->
  List.length l <= List.length (flat_map f l).
Proof.
  intros Hf. induction l as [|a l IH]; cbn [flat_map].
  - simpl. lia.
  - rewrite length_app. specialize (Hf a). simpl. lia.
Qed.

Lemma flat_map_uno A B (f : A -> list B) (l : list A) :
  (forall a, List.length (f a) = 1) ->
  List.length (flat_map f l) = List.length l.
Proof.
  intros Hf. induction l as [|a l IH]; cbn [flat_map].
  - reflexivity.
  - rewrite length_app, IH, (Hf a). reflexivity.
Qed.

(** An outer join never drops a left row. *)
Lemma left_outer_join_no_pierde A B (on : A -> B -> bool) (izq : list A) (der : list B) :
  List.length izq <= List.length (left_outer_join on izq der).
Proof.
  unfold left_outer_join. apply flat_map_al_menos_uno.
  intros a. destruct (filter (on a) der); simpl; lia.
Qed.

Lemma left_outer_join_length A B (on : A -> B -> bool) (izq : list A) (der : list B) :
  (forall a, List.length (filter (on a) der) <= 1) ->
  List.length (left_outer_join on izq der) = List.length izq.
Proof.
  intros Hu. unfold left_outer_join. apply flat_map_uno.
  intros a. specialize (Hu a).
  destruct (filter (on a) der) as [|b [|b' ms]]; simpl in *; lia.
Qed.

Lemma on_proyecto_unico (ps : list Proyecto.t) (o : Obra.t) :
  NoDup (map Proyecto.id ps) ->
  List.length (filter (on_proyecto o) ps) <= 1.
Proof.
  apply filter_clave_unica
    with (k := match Obra.proyecto_id o with Some k => k | None => 0%Z end).
  intros b. unfold on_proyecto. destruct (Obra.proyecto_id o); intros H.
  - symmetry. apply Z.eqb_eq. exact H.
  - discriminate.
Qed.

Lemma on_responsable_unico (rs : list Responsable.t) (op : Obra.t * option Proyecto.t) :
  NoDup (map Responsable.id rs) ->
  List.length (filter (on_responsable op) rs) <= 1.
Proof.
  apply filter_clave_unica
    with (k := match Obra.responsable_id (fst op) with Some k => k | None => 0%Z end).
  intros b. unfold on_responsable. destruct (Obra.responsable_id (fst op)); intros H.
  - symmetry. apply Z.eqb_eq. exact H.
  - discriminate.
Qed.

Lemma consulta_length (db : BaseDatos) :
  claves_primarias db ->
  List.length (consulta db) = List.length (obras db).
Proof.
  intros [Hp Hr]. unfold consulta.
  rewrite length_map.
  rewrite left_outer_join_length by (intros a; apply on_responsable_unico; exact Hr).
  apply left_outer_join_length. intros a. apply on_proyecto_unico. exact Hp.
Qed.

(** C1. In every database state (the primary keys [Proyecto.id] and
    [Responsable.id] are unique, as the schema declares), the extractor
    returns without raising, and the frame it returns has as many rows as
    there are works, whether or not a work has a matching project or
    responsible party. *)
Theorem obtener_obras_orm_una_fila_por_obra
    (parse_datetime : list celda_fecha -> celda_fecha -> option Timestamp)
    (db : BaseDatos) :
  claves_primarias db ->
  exists df : DataFrame,
    obtener_obras_orm parse_datetime db = Ok df /\
    List.length df = List.length (obras db).
Proof.
  intros Hpk. rewrite obtener_obras_orm_filas. eexists. split.
  - reflexivity.
  - rewrite length_map. apply consulta_length. exact Hpk.
Qed.

Lemma obtener_obras_orm_una_fila_por_obra_ejemplo :
  claves_primarias db_ejemplo /\
  exists df : DataFrame,
    obtener_obras_orm parse_datetime_iso db_ejemplo = Ok df /\
    List.length df = List.length (obras db_ejemplo).
Proof.
  assert (Hpk : claves_primarias db_ejemplo).
  { split; simpl; repeat constructor; simpl; intuition discriminate. }
  split.
  - exact Hpk.
  - exact (obtener_obras_orm_una_fila_por_obra parse_datetime_iso db_ejemplo Hpk).
Defined.

(** C8. A fetched row whose start date cannot be converted becomes, at the
    same position of the returned frame, a row without start date and
    without year; the extractor does not raise; and in every row of the
    frame the year is the year of the start date when there is one (and is
    absent otherwise). *)
Theorem obtener_obras_orm_fecha_no_convertible
    (parse_datetime : list celda_fecha -> celda_fecha -> option Timestamp)
    (db : BaseDatos)
    (i : nat) (q : FilaConsulta) :
  nth_error (consulta db) i = Some q ->
  parse_datetime (map q_inicio (consulta db)) (q_inicio q) = None ->
  exists (df : DataFrame) (s : SyncRow),
    obtener_obras_orm parse_datetime db = Ok df /\
    nth_error df i = Some s /\
    s_inicio s = None /\
    s_anio s = None /\
    (forall s', In s' df -> s_anio s' = option_map year (s_inicio s')).
Proof.
  intros Hq Hparse.
  rewrite obtener_obras_orm_filas.
  assert (Hc : coerce (parse_datetime (map q_inicio (consulta db))) (q_inicio q) = None).
  { unfold coerce. destruct (q_inicio q); [reflexivity | exact Hparse | exact Hparse]. }
  eexists _, (fila_sync _ _ q). repeat split.
  - rewrite nth_error_map, Hq. reflexivity.
  - simpl. exact Hc.
  - simpl. rewrite Hc. reflexivity.
  - intros s' Hin. apply in_map_iff in Hin. destruct Hin as [q' [<- _]]. reflexivity.
Qed.

Lemma obtener_obras_orm_fecha_no_convertible_ejemplo :
  exists (df : DataFrame) (s : SyncRow),
    obtener_obras_orm parse_datetime_iso db_ejemplo = Ok df /\
    nth_error df 0 = Some s /\
    s_inicio s = None /\
    s_anio s = None /\
    (forall s', In s' df -> s_anio s' = option_map year (s_inicio s')).
Proof.
  apply (obtener_obras_orm_fecha_no_convertible parse_datetime_iso db_ejemplo 0
           {| q_nombre := Some "Puente"; q_proyecto := Some "Norte";
              q_estado := Some "Activa"; q_inicio := CTexto "not-a-date";
              q_fin := CNull; q_responsable := None; q_correo := None;
              q_fase := None |}).
  - reflexivity.
  - reflexivity.
Defined.

(* ------------------------------------------------------------------ *)
(** ** Rows on the wire *)

Lemma dropna_sin_nulos (f : fila) :
  Forall (fun cv => isna (snd cv) = false) (dropna f).
Proof.
  apply Forall_forall. intros cv Hin.
  apply filter_In in Hin. destruct Hin as [_ H].
  apply negb_true_iff. exact H.
Qed.

Lemma serializar_fila_wire_de (f : fila) :
  Forall (fun cv => isna (snd cv) = false) f ->
  serializar_fila f = Ok (wire_de f).
Proof.
  intros Hf. unfold serializar_fila, wire_de.
  rewrite mapR_Ok
    with (g := fun cv => {| column := fst cv;
                            value := match snd cv with
                                     | VTimestamp t => VStr (strftime_ymd t)
                                     | v => v
                                     end |}).
  - reflexivity.
  - intros [c v] Hin. rewrite Forall_forall in Hf. specialize (Hf _ Hin).
    simpl in *. destruct v; simpl; try reflexivity. discriminate.
Qed.

Lemma wire_de_columnas (f : fila) :
  map column (cells (wire_de f)) = map fst f.
Proof.
  unfold wire_de. simpl. rewrite map_map. reflexivity.
Qed.

Lemma wire_de_sin_nulos (f : fila) :
  Forall (fun cv => isna (snd cv) = false) f ->
  Forall (fun c => isna (value c) = false) (cells (wire_de f)).
Proof.
  intros Hf. unfold wire_de. simpl. apply Forall_map.
  eapply Forall_impl; [|exact Hf].
  intros [c v] H. simpl in *. destruct v; simpl; try reflexivity; discriminate.
Qed.

Lemma dropna_claves_NoDup (f : fila) :
  NoDup (map fst f) -> NoDup (map fst (dropna f)).
Proof.
  unfold dropna. induction f as [|[c v] f IH]; simpl; intros Hnd.
  - constructor.
  - inversion Hnd as [|? ? Hnotin Hnd']; subst.
    destruct (negb (isna v)); simpl.
    + constructor; [|apply IH; exact Hnd'].
      intros Hin. apply Hnotin.
      apply in_map_iff in Hin. destruct Hin as [cv [Hc Hcv]].
      apply filter_In in Hcv. apply in_map_iff. exists cv. tauto.
    + apply IH. exact Hnd'.
Qed.

Lemma iterrows_fila_claves_NoDup (s : SyncRow) :
  NoDup (map fst (iterrows_fila s)).
Proof.
  simpl. repeat constructor; simpl; intuition discriminate.
Qed.

Lemma dropna_campos_presentes (s : SyncRow) :
  map fst (dropna (iterrows_fila s)) = campos_presentes s.
Proof.
  destruct s as [a b c d e f g h i].
  destruct a, b, c, d, e, f, g, h, i; reflexivity.
Qed.

(** C2. The wire row of a row of the frame (serialised as [__main__] does,
    after [dropna]) has exactly one cell for each field that has a value, in
    column order, no cell for a field without value, and no cell whose value
    is null; serialising it does not raise.  A row with only a name and a
    status has exactly the two cells of its name and its status. *)
Theorem serializar_fila_omite_ausentes :
  (forall s : SyncRow,
     exists w : fila_wire,
       serializar_fila (dropna (iterrows_fila s)) = Ok w /\
       map column (cells w) = campos_presentes s /\
       NoDup (map column (cells w)) /\
       Forall (fun c => isna (value c) = false) (cells w)) /\
  (forall nombre estado : string,
     serializar_fila (dropna (iterrows_fila (solo_nombre_y_estado nombre estado)))
     = Ok {| cells := [ {| column := "Nombre de la obra"; value := VStr nombre |};
                        {| column := "Estado"; value := VStr estado |} ] |}).
Proof.
  split.
  - intros s. exists (wire_de (dropna (iterrows_fila s))).
    split; [|split; [|split]].
    + apply serializar_fila_wire_de, dropna_sin_nulos.
    + rewrite wire_de_columnas. apply dropna_campos_presentes.
    + rewrite wire_de_columnas. apply dropna_claves_NoDup, iterrows_fila_claves_NoDup.
    + apply wire_de_sin_nulos, dropna_sin_nulos.
  - intros nombre estado. reflexivity.
Qed.

(* ------------------------------------------------------------------ *)
(** ** Ranges and slices *)

Lemma ceil_div_0 (step : nat) : 0 < step -> ceil_div 0 step = 0.
Proof.
  intros H. unfold ceil_div. apply Nat.div_small. lia.
Qed.

Lemma ceil_div_paso (a step : nat) :
  0 < step -> 0 < a -> ceil_div a step = S (ceil_div (a - step) step).
Proof.
  intros Hs Ha. unfold ceil_div.
  destruct (Nat.le_gt_cases step a) as [Hle | Hlt].
  - replace (a + step - 1) with ((a - step + step - 1) + 1 * step) by lia.
    rewrite Nat.div_add by lia. lia.
  - replace (a - step) with 0 by lia.
    rewrite (Nat.div_small (0 + step - 1) step) by lia.
    symmetry. apply Nat.div_unique with (r := a - 1); lia.
Qed.

Lemma range_desde_length (step stop fuel i : nat) :
  0 < step -> stop - i <= fuel ->
  List.length (range_desde fuel i stop step) = ceil_div (stop - i) step.
Proof.
  intros Hs. revert i. induction fuel as [|fuel IH]; intros i Hf; simpl.
  - replace (stop - i) with 0 by lia. rewrite ceil_div_0; [reflexivity | exact Hs].
  - destruct (Nat.ltb_spec i stop) as [Hlt | Hge]; simpl.
    + rewrite IH by lia.
      rewrite (ceil_div_paso (stop - i) step) by lia.
      do 2 f_equal. lia.
    + replace (stop - i) with 0 by lia. rewrite ceil_div_0; [reflexivity | exact Hs].
Qed.

Lemma range_length (stop step : nat) :
  0 < step -> List.length (range 0 stop step) = ceil_div stop step.
Proof.
  intros Hs. unfold range. rewrite range_desde_length by lia.
  rewrite Nat.sub_0_r. reflexivity.
Qed.

Lemma range_desde_In (step stop fuel i j : nat) :
  In j (range_desde fuel i stop step) -> i <= j < stop.
Proof.
  revert i. induction fuel as [|fuel IH]; intros i; simpl.
  - tauto.
  - destruct (Nat.ltb_spec i stop) as [Hlt | Hge]; simpl; [|tauto].
    intros [<- | Hin]; [lia|]. apply IH in Hin. lia.
Qed.

Lemma range_In (stop step j : nat) :
  In j (range 0 stop step) -> j < stop.
Proof.
  intros H. apply range_desde_In in H. lia.
Qed.

Lemma slice_length A (l : list A) (i j : nat) :
  List.length (slice l i j) = Nat.min (j - i) (List.length l - i).
Proof.
  unfold slice. rewrite length_firstn, length_skipn. reflexivity.
Qed.

(** The slices at the indices of the range are the list, cut in order. *)
Lemma concat_slices_desde A (l : list A) (step fuel i : nat) :
  0 < step -> List.length l - i <= fuel ->
  List.concat (map (fun j => slice l j (j + step)) (range_desde fuel i (List.length l) step))
  = skipn i l.
Proof.
  intros Hs. revert i. induction fuel as [|fuel IH]; intros i Hf; simpl.
  - symmetry. apply skipn_all2. lia.
  - destruct (Nat.ltb_spec i (List.length l)) as [Hlt | Hge]; simpl.
    + rewrite IH by lia. unfold slice.
      replace (i + step - i) with step by lia.
      replace (i + step) with (step + i) by lia.
      rewrite <- skipn_skipn. apply firstn_skipn.
    + symmetry. apply skipn_all2. lia.
Qed.

Lemma concat_slices A (l : list A) (step : nat) :
  0 < step ->
  List.concat (map (fun j => slice l j (j + step)) (range 0 (List.length l) step)) = l.
Proof.
  intros Hs. unfold range. rewrite concat_slices_desde by lia. reflexivity.
Qed.

Lemma slices_acotados A (l : list A) (step : nat) :
  0 < step ->
  Forall (fun lote : list A => 1 <= List.length lote <= step)
    (map (fun j => slice l j (j + step)) (range 0 (List.length l) step)).
Proof.
  intros Hs. apply Forall_map, Forall_forall. intros j Hj.
  apply range_In in Hj. rewrite slice_length. lia.
Qed.

Lemma slice_map A B (f : A -> B) (l : list A) (i j : nat) :
  slice (map f l) i j = map f (slice l i j).
Proof.
  unfold slice. rewrite skipn_map, firstn_map. reflexivity.
Qed.

(* ------------------------------------------------------------------ *)
(** ** The locator *)

Section RemotoProps.

Variable coda : nat -> peticion -> respuesta.

(** A listing that succeeds: one GET, then the rest of the function on
    the items. *)
Lemma listar_items A (url : string) (n : nat) (items : list item)
    (k : list item -> M A) :
  lista (coda n {| p_metodo := GET; p_url := url; p_json := SinJson |}) items ->
  (r <- requests coda GET url SinJson ;;
   raise_for_status r ;;
   xs <- json_items r ;;
   k xs) n
  = let '(res, n', ev) := k items (S n) in
    (res, n', EvPeticion {| p_metodo := GET; p_url := url; p_json := SinJson |} :: ev).
Proof.
  intros [Hst Hc].
  unfold bind, requests, raise_for_status, json_items.
  rewrite Hst.
  destruct Hc as [Hc | [Hc ->]]; rewrite Hc; unfold ret;
    match goal with |- context [k ?x ?m] => destruct (k x m) as [[res n'] ev] end;
    reflexivity.
Qed.

Lemma buscar_documento_sin_coincidencia (nombre : string) (docs : list item) (n : nat) :
  sin_coincidencia nombre docs = true ->
  buscar_documento nombre docs n
  = (Raise (ValueError ("No se encontró el documento con nombre '" ++ nombre ++ "'")%string),
     n, []).
Proof.
  induction docs as [|d docs IH]; simpl; intros H.
  - reflexivity.
  - apply andb_true_iff in H. destruct H as [Hd Hr].
    apply negb_true_iff in Hd. rewrite Hd. apply IH. exact Hr.
Qed.

Lemma buscar_tabla_sin_coincidencia (nombre : string) (tablas : list item) (n : nat) :
  sin_coincidencia nombre tablas = true ->
  buscar_tabla nombre tablas n
  = (Raise (ValueError ("No se encontró la tabla '" ++ nombre ++ "' en el documento.")%string),
     n, []).
Proof.
  induction tablas as [|d tablas IH]; simpl; intros H.
  - reflexivity.
  - apply andb_true_iff in H. destruct H as [Hd Hr].
    apply negb_true_iff in Hd. rewrite Hd. apply IH. exact Hr.
Qed.

Lemma buscar_documento_primero (nombre : string) (pre : list item) (x : item)
    (post : list item) (n : nat) :
  sin_coincidencia nombre pre = true ->
  item_name x = nombre ->
  buscar_documento nombre (pre ++ x :: post) n
  = (Ok (item_id x), n, [EvPrint (MsgDocumentoEncontrado nombre (item_id x))]).
Proof.
  intros Hpre Hx. induction pre as [|d pre IH]; simpl.
  - rewrite Hx, String.eqb_refl. reflexivity.
  - simpl in Hpre. apply andb_true_iff in Hpre. destruct Hpre as [Hd Hr].
    apply negb_true_iff in Hd. rewrite Hd. apply IH. exact Hr.
Qed.

Lemma buscar_tabla_primero (nombre : string) (pre : list item) (x : item)
    (post : list item) (n : nat) :
  sin_coincidencia nombre pre = true ->
  item_name x = nombre ->
  buscar_tabla nombre (pre ++ x :: post) n
  = (Ok (item_id x), n, [EvPrint (MsgTablaEncontrada nombre (item_id x))]).
Proof.
  intros Hpre Hx. induction pre as [|d pre IH]; simpl.
  - rewrite Hx, String.eqb_refl. reflexivity.
  - simpl in Hpre. apply andb_true_iff in Hpre. destruct Hpre as [Hd Hr].
    apply negb_true_iff in Hd. rewrite Hd. apply IH. exact Hr.
Qed.

(** The loops of the locator make no request and only print. *)
Lemma buscar_documento_eventos (nombre : string) (docs : list item) (n : nat) :
  snd (fst (buscar_documento nombre docs n)) = n /\
  sin_mutaciones (snd (buscar_documento nombre docs n)) = true.
Proof.
  induction docs as [|d docs IH]; simpl.
  - split; reflexivity.
  - destruct (String.eqb (item_name d) nombre); [split; reflexivity | exact IH].
Qed.

Lemma obtener_documento_id_por_nombre_lista (nombre : string) (n : nat)
    (docs : list item) :
  lista (coda n peticion_docs) docs ->
  obtener_documento_id_por_nombre coda nombre n
  = let '(res, n', ev) := buscar_documento nombre docs (S n) in
    (res, n', EvPrint MsgBuscandoDocumento :: EvPeticion peticion_docs :: ev).
Proof.
  intros H. unfold obtener_documento_id_por_nombre.
  unfold bind at 1. unfold print at 1.
  rewrite (listar_items _ url_docs n docs (buscar_documento nombre) H).
  destruct (buscar_documento nombre docs (S n)) as [[res n'] ev]. reflexivity.
Qed.

Lemma obtener_table_id_lista (doc_id nombre : string) (n : nat) (tablas : list item) :
  lista (coda n (peticion_tables doc_id)) tablas ->
  obtener_table_id coda doc_id nombre n
  = let '(res, n', ev) := buscar_tabla nombre tablas (S n) in
    (res, n', EvPrint MsgBuscandoTabla :: EvPeticion (peticion_tables doc_id) :: ev).
Proof.
  intros H. unfold obtener_table_id.
  unfold bind at 1. unfold print at 1.
  rewrite (listar_items _ (url_tables doc_id) n tablas (buscar_tabla nombre) H).
  destruct (buscar_tabla nombre tablas (S n)) as [[res n'] ev]. reflexivity.
Qed.

(** Whatever the service answers, resolving the document changes nothing
    remotely. *)
Lemma obtener_documento_id_por_nombre_sin_mutaciones (nombre : string) (n : nat) :
  sin_mutaciones (snd (obtener_documento_id_por_nombre coda nombre n)) = true.
Proof.
  unfold obtener_documento_id_por_nombre, bind, print, requests,
    raise_for_status, json_items, raise, ret.
  destruct ((400 <=? status_code (coda n _))%Z && _); simpl; [reflexivity|].
  destruct (cuerpo (coda n _)) as [|[items|]]; simpl; try reflexivity.
  destruct (buscar_documento_eventos nombre items (S n)) as [_ H].
  destruct (buscar_documento nombre items (S n)) as [[res n'] ev].
  destruct res; simpl in *; exact H.
Qed.

End RemotoProps.

(* ------------------------------------------------------------------ *)
(** ** Sequencing *)

Lemma bind_Raise A B (m : M A) (k : A -> M B) (n n' : nat) (e : excepcion)
    (ev : list evento) :
  m n = (Raise e, n', ev) -> bind m k n = (Raise e, n', ev).
Proof.
  intros H. unfold bind. rewrite H. reflexivity.
Qed.

Lemma bind_Ok A B (m : M A) (k : A -> M B) (n n' : nat) (a : A) (ev : list evento) :
  m n = (Ok a, n', ev) ->
  bind m k n = let '(r, n'', ev') := k a n' in (r, n'', ev ++ ev').
Proof.
  intros H. unfold bind. rewrite H. reflexivity.
Qed.

Lemma sin_mutaciones_app (ev ev' : list evento) :
  sin_mutaciones (ev ++ ev') = sin_mutaciones ev && sin_mutaciones ev'.
Proof.
  apply forallb_app.
Qed.

(** C7. When the listing of the documents is answered and no document
    bears exactly the name sought, or the document is found and the listing
    of its tables is answered and no table bears exactly the name sought,
    the run ends with the locator's [ValueError] (the spec's NotFoundError),
    and up to that point no DELETE and no POST has been sent. *)
Theorem main_nombre_no_encontrado
    (coda : nat -> peticion -> respuesta)
    (parse_datetime : list celda_fecha -> celda_fecha -> option Timestamp)
    (db : BaseDatos)
    (nombre_documento nombre_tabla : string) (n : nat) :
  (exists docs,
      lista (coda n peticion_docs) docs /\
      sin_coincidencia nombre_documento docs = true) \/
  (exists doc_id n1 ev1 tablas,
      obtener_documento_id_por_nombre coda nombre_documento n = (Ok doc_id, n1, ev1) /\
      lista (coda n1 (peticion_tables doc_id)) tablas /\
      sin_coincidencia nombre_tabla tablas = true) ->
  exists msg n' ev,
    main coda parse_datetime db nombre_documento nombre_tabla n
    = (Raise (ValueError msg), n', ev) /\
    (msg = ("No se encontró el documento con nombre '" ++ nombre_documento ++ "'")%string \/
     msg = ("No se encontró la tabla '" ++ nombre_tabla ++ "' en el documento.")%string) /\
    sin_mutaciones ev = true.
Proof.
  intros [[docs [Hl Hs]] | [doc_id [n1 [ev1 [tablas [Hdoc [Hl Hs]]]]]]].
  - eexists _, _, _. split; [|split].
    + unfold main. apply bind_Raise.
      rewrite (obtener_documento_id_por_nombre_lista coda _ _ _ Hl).
      rewrite (buscar_documento_sin_coincidencia _ _ _ Hs). reflexivity.
    + left. reflexivity.
    + reflexivity.
  - eexists _, _, _. split; [|split].
    + unfold main. rewrite (bind_Ok _ _ _ _ _ _ _ _ Hdoc).
      erewrite bind_Raise; [reflexivity|].
      rewrite (obtener_table_id_lista coda _ _ _ _ Hl).
      rewrite (buscar_tabla_sin_coincidencia _ _ _ Hs). reflexivity.
    + right. reflexivity.
    + rewrite sin_mutaciones_app.
      pose proof (obtener_documento_id_por_nombre_sin_mutaciones coda nombre_documento n) as H.
      rewrite Hdoc in H. simpl in H. rewrite H. reflexivity.
Qed.

Lemma main_nombre_no_encontrado_ejemplo :
  (exists msg n' ev,
     main coda_homonimos parse_datetime_iso db_ejemplo "Obra" "Avance" 0
     = (Raise (ValueError msg), n', ev) /\
     (msg = "No se encontró el documento con nombre 'Obra'" \/
      msg = "No se encontró la tabla 'Avance' en el documento.") /\
     sin_mutaciones ev = true) /\
  (exists msg n' ev,
     main coda_homonimos parse_datetime_iso db_ejemplo "Obras" "avance" 0
     = (Raise (ValueError msg), n', ev) /\
     (msg = "No se encontró el documento con nombre 'Obras'" \/
      msg = "No se encontró la tabla 'avance' en el documento.") /\
     sin_mutaciones ev = true).
Proof.
  split.
  - apply (main_nombre_no_encontrado coda_homonimos parse_datetime_iso db_ejemplo "Obra" "Avance" 0).
    left.
    exists [ {| item_id := "d0"; item_name := "obras" |};
             {| item_id := "d1"; item_name := "Obras" |};
             {| item_id := "d2"; item_name := "Obras" |} ].
    split; [split; [reflexivity | left; reflexivity] | reflexivity].
  - apply (main_nombre_no_encontrado coda_homonimos parse_datetime_iso db_ejemplo "Obras" "avance" 0).
    right.
    exists "d1", 1,
      [ EvPrint MsgBuscandoDocumento; EvPeticion peticion_docs;
        EvPrint (MsgDocumentoEncontrado "Obras" "d1") ],
      [ {| item_id := "t1"; item_name := "Avance" |};
        {| item_id := "t2"; item_name := "Avance" |} ].
    split; [reflexivity | split; [split; [reflexivity | left; reflexivity] | reflexivity]].
Defined.

(** C10. When several documents, or several tables of a document, bear the
    name sought, the locator returns the identifier of the first of them in
    the order of the listing, whatever follows it, and raises nothing. *)
Theorem localizador_primera_coincidencia
    (coda : nat -> peticion -> respuesta) (nombre_documento nombre_tabla doc_id : string)
    (n m : nat) (pre : list item) (x : item) (post : list item)
    (pre' : list item) (x' : item) (post' : list item) :
  lista (coda n peticion_docs) (pre ++ x :: post) ->
  sin_coincidencia nombre_documento pre = true ->
  item_name x = nombre_documento ->
  lista (coda m (peticion_tables doc_id)) (pre' ++ x' :: post') ->
  sin_coincidencia nombre_tabla pre' = true ->
  item_name x' = nombre_tabla ->
  obtener_documento_id_por_nombre coda nombre_documento n
  = (Ok (item_id x), S n,
     [ EvPrint MsgBuscandoDocumento; EvPeticion peticion_docs;
       EvPrint (MsgDocumentoEncontrado nombre_documento (item_id x)) ]) /\
  obtener_table_id coda doc_id nombre_tabla m
  = (Ok (item_id x'), S m,
     [ EvPrint MsgBuscandoTabla; EvPeticion (peticion_tables doc_id);
       EvPrint (MsgTablaEncontrada nombre_tabla (item_id x')) ]).
Proof.
  intros Hl Hpre Hx Hl' Hpre' Hx'. split.
  - rewrite (obtener_documento_id_por_nombre_lista coda _ _ _ Hl).
    rewrite (buscar_documento_primero _ _ _ _ _ Hpre Hx). reflexivity.
  - rewrite (obtener_table_id_lista coda _ _ _ _ Hl').
    rewrite (buscar_tabla_primero _ _ _ _ _ Hpre' Hx'). reflexivity.
Qed.

Lemma localizador_primera_coincidencia_ejemplo :
  obtener_documento_id_por_nombre coda_homonimos "Obras" 0
  = (Ok "d1", 1,
     [ EvPrint MsgBuscandoDocumento; EvPeticion peticion_docs;
       EvPrint (MsgDocumentoEncontrado "Obras" "d1") ]) /\
  obtener_table_id coda_homonimos "d1" "Avance" 1
  = (Ok "t1", 2,
     [ EvPrint MsgBuscandoTabla; EvPeticion (peticion_tables "d1");
       EvPrint (MsgTablaEncontrada "Avance" "t1") ]).
Proof.
  apply (localizador_primera_coincidencia coda_homonimos "Obras" "Avance" "d1" 0 1
           [ {| item_id := "d0"; item_name := "obras" |} ]
           {| item_id := "d1"; item_name := "Obras" |}
           [ {| item_id := "d2"; item_name := "Obras" |} ]
           []
           {| item_id := "t1"; item_name := "Avance" |}
           [ {| item_id := "t2"; item_name := "Avance" |} ]).
  - split; [reflexivity | left; reflexivity].
  - reflexivity.
  - reflexivity.
  - split; [reflexivity | left; reflexivity].
  - reflexivity.
  - reflexivity.
Defined.

(* ------------------------------------------------------------------ *)
(** ** The purger *)

Section PurgadorProps.

Variable coda : nat -> peticion -> respuesta.
Variables doc_id table_id : string.

Lemma eliminar_lote_eq (ids : list string) (i n : nat) :
  exists m,
    eliminar_lote coda doc_id table_id ids i n
    = (Ok tt, S n,
       [ EvPeticion {| p_metodo := DELETE; p_url := url_rows doc_id table_id;
                       p_json := JsonRowIds (slice ids i (i + 50)) |};
         EvPrint m ]).
Proof.
  unfold eliminar_lote, bind, requests.
  destruct (status_code _ =? 202)%Z; eexists; reflexivity.
Qed.

Lemma por_cada_eliminar_lote (ids : list string) (idxs : list nat) (n : nat) :
  exists ev,
    por_cada idxs (eliminar_lote coda doc_id table_id ids) n
    = (Ok tt, n + List.length idxs, ev) /\
    lotes_eliminados ev = map (fun i => slice ids i (i + 50)) idxs /\
    List.length (filter (es_peticion DELETE) ev) = List.length idxs.
Proof.
  revert n. induction idxs as [|i idxs IH]; intros n.
  - exists []. simpl. rewrite Nat.add_0_r. repeat split.
  - destruct (IH (S n)) as [ev [Hrun [Hlotes Hcuenta]]].
    destruct (eliminar_lote_eq ids i n) as [m Hlote].
    eexists. split; [|split].
    + cbn [por_cada]. rewrite (bind_Ok _ _ _ _ _ _ _ _ Hlote), Hrun.
      simpl. do 2 f_equal. lia.
    + simpl. rewrite Hlotes. reflexivity.
    + simpl. rewrite Hcuenta. reflexivity.
Qed.

End PurgadorProps.

(** C5. When the listing of the rows is answered with N rows, the purger
    sends exactly ceil(N/50) DELETE requests whatever the service answers to
    them; each carries between 1 and 50 row ids, and together, in order,
    they carry the listed ids.  With 120 ids the requests carry 50, 50 and
    20 ids. *)
Theorem eliminar_todas_las_filas_lotes
    (coda : nat -> peticion -> respuesta) (doc_id table_id : string) (n : nat)
    (items : list item) :
  lista (coda n (peticion_rows doc_id table_id)) items ->
  exists n' ev,
    eliminar_todas_las_filas coda doc_id table_id n = (Ok tt, n', ev) /\
    List.length (filter (es_peticion DELETE) ev) = ceil_div (List.length items) 50 /\
    List.length (lotes_eliminados ev) = ceil_div (List.length items) 50 /\
    Forall (fun lote : list string => 1 <= List.length lote <= 50) (lotes_eliminados ev) /\
    List.concat (lotes_eliminados ev) = map item_id items /\
    (List.length items = 120 ->
     map (@List.length string) (lotes_eliminados ev) = [50; 50; 20]).
Proof.
  intros Hl.
  destruct (por_cada_eliminar_lote coda doc_id table_id (map item_id items)
              (range 0 (List.length (map item_id items)) 50) (S n))
    as [ev [Hrun [Hlotes Hcuenta]]].
  exists (S n + List.length (range 0 (List.length (map item_id items)) 50)),
    (EvPrint MsgEliminando :: EvPeticion (peticion_rows doc_id table_id) :: ev).
  split; [|split; [|split; [|split; [|split]]]].
  - unfold eliminar_todas_las_filas. unfold bind at 1. unfold print at 1.
    rewrite (listar_items coda _ (url_rows doc_id table_id) n items
               (fun rows => por_cada (range 0 (List.length (map item_id rows)) 50)
                              (eliminar_lote coda doc_id table_id (map item_id rows))) Hl).
    rewrite Hrun. reflexivity.
  - simpl. rewrite Hcuenta, range_length by lia. rewrite length_map. reflexivity.
  - simpl. rewrite Hlotes, length_map, range_length by lia.
    rewrite length_map. reflexivity.
  - simpl. rewrite Hlotes. apply slices_acotados. lia.
  - simpl. rewrite Hlotes. apply concat_slices. lia.
  - intros H120. simpl. rewrite Hlotes, length_map, H120.
    change (range 0 120 50) with [0; 50; 100]. simpl.
    rewrite !slice_length, length_map, H120. reflexivity.
Qed.

Lemma eliminar_todas_las_filas_lotes_ejemplo :
  exists n' ev,
    eliminar_todas_las_filas (coda_fijo 202 (items_ejemplo 120)) "d" "t" 0 = (Ok tt, n', ev) /\
    List.length (filter (es_peticion DELETE) ev) = ceil_div (List.length (items_ejemplo 120)) 50 /\
    List.length (lotes_eliminados ev) = ceil_div (List.length (items_ejemplo 120)) 50 /\
    Forall (fun lote : list string => 1 <= List.length lote <= 50) (lotes_eliminados ev) /\
    List.concat (lotes_eliminados ev) = map item_id (items_ejemplo 120) /\
    (List.length (items_ejemplo 120) = 120 ->
     map (@List.length string) (lotes_eliminados ev) = [50; 50; 20]).
Proof.
  apply (eliminar_todas_las_filas_lotes (coda_fijo 202 (items_ejemplo 120)) "d" "t" 0
           (items_ejemplo 120)).
  split; [reflexivity | left; reflexivity].
Defined.

(* ------------------------------------------------------------------ *)
(** ** The batch inserter *)

Lemma dict_get_ausente (f : fila) (k : string) (d : valor) :
  ~ In k (map fst f) -> dict_get f k d = d.
Proof.
  induction f as [|[k' v] f IH]; simpl; intros H.
  - reflexivity.
  - destruct (String.eqb_spec k' k) as [-> | Hne].
    + exfalso. apply H. left. reflexivity.
    + apply IH. intros Hin. apply H. right. exact Hin.
Qed.

Lemma filas_dicts_limpias (df : DataFrame) : Forall fila_limpia (filas_dicts df).
Proof.
  unfold filas_dicts. apply Forall_map, Forall_forall. intros s _. split.
  - apply dropna_sin_nulos.
  - destruct s as [nombre b c d e f g h i]. destruct nombre as [t|].
    + exists t. reflexivity.
    + exists "Sin nombre". apply dict_get_ausente.
      rewrite dropna_campos_presentes.
      destruct b, c, d, e, f, g, h, i; simpl; intuition discriminate.
Qed.

Lemma slice_filas_dicts (df : DataFrame) (i j : nat) :
  slice (filas_dicts df) i j = filas_dicts (slice df i j).
Proof.
  apply slice_map.
Qed.

Lemma payload_limpio (batch : list fila) :
  Forall fila_limpia batch ->
  mapR serializar_fila batch = Ok (map wire_de batch).
Proof.
  intros H. apply mapR_Ok. intros f Hin.
  rewrite Forall_forall in H. apply serializar_fila_wire_de, (H f Hin).
Qed.

Lemma nombres_limpios (batch : list fila) :
  Forall fila_limpia batch ->
  exists unidos,
    join_coma (map (fun f => dict_get f "Nombre de la obra" (VStr "Sin nombre")) batch)
    = Ok unidos.
Proof.
  intros H. unfold join_coma.
  rewrite mapR_Ok with (g := fun v => match v with VStr t => t | _ => EmptyString end).
  - eexists. reflexivity.
  - intros v Hin. apply in_map_iff in Hin. destruct Hin as [f [<- Hf]].
    rewrite Forall_forall in H. destruct (H f Hf) as [_ [t Ht]].
    rewrite Ht. reflexivity.
Qed.

Section InsertadorProps.

Variable coda : nat -> peticion -> respuesta.
Variables doc_id table_id : string.

(** One attempt answered 429: print, sleep, and go on with the attempts
    that remain. *)
Lemma bucle_reintentos_429 (batch : list fila) (payload : list fila_wire)
    (intento : nat) (resto : list nat) (n : nat) :
  status_code (coda n (peticion_post doc_id table_id payload)) = 429%Z ->
  bucle_reintentos coda doc_id table_id batch payload (intento :: resto) n
  = let '(r, n', ev) := bucle_reintentos coda doc_id table_id batch payload resto (S n) in
    (r, n',
     EvPeticion (peticion_post doc_id table_id payload) :: EvPrint (MsgLimiteAlcanzado (2 ^ intento))
       :: EvSleep (2 ^ intento) :: ev).
Proof.
  intros H. cbn [bucle_reintentos]. unfold bind at 1. unfold requests at 1.
  fold (peticion_post doc_id table_id payload). rewrite H.
  change (429 =? 202)%Z with false. change (429 =? 429)%Z with true. cbv iota.
  unfold bind, print, sleep.
  destruct (bucle_reintentos coda doc_id table_id batch payload resto (S n))
    as [[r n'] ev].
  reflexivity.
Qed.

(** One attempt answered 202: the batch is accepted and the loop ends. *)
Lemma bucle_reintentos_202 (batch : list fila) (payload : list fila_wire)
    (intento : nat) (resto : list nat) (n : nat) (unidos : string) :
  status_code (coda n (peticion_post doc_id table_id payload)) = 202%Z ->
  join_coma (map (fun f => dict_get f "Nombre de la obra" (VStr "Sin nombre")) batch)
  = Ok unidos ->
  bucle_reintentos coda doc_id table_id batch payload (intento :: resto) n
  = (Ok tt, S n,
     [ EvPeticion (peticion_post doc_id table_id payload);
       EvPrint (MsgFilasInsertadas (List.length batch) unidos) ]).
Proof.
  intros H Hj. cbn [bucle_reintentos]. unfold bind at 1. unfold requests at 1.
  fold (peticion_post doc_id table_id payload). rewrite H.
  change (202 =? 202)%Z with true. cbv iota.
  unfold bind, lift, print. rewrite Hj. reflexivity.
Qed.

(** One attempt answered neither 202 nor 429: the loop ends. *)
Lemma bucle_reintentos_otro (batch : list fila) (payload : list fila_wire)
    (intento : nat) (resto : list nat) (n : nat) :
  status_code (coda n (peticion_post doc_id table_id payload)) <> 202%Z ->
  status_code (coda n (peticion_post doc_id table_id payload)) <> 429%Z ->
  bucle_reintentos coda doc_id table_id batch payload (intento :: resto) n
  = (Ok tt, S n,
     [ EvPeticion (peticion_post doc_id table_id payload);
       EvPrint (MsgErrorInsertar (status_code (coda n (peticion_post doc_id table_id payload)))) ]).
Proof.
  intros H1 H2. cbn [bucle_reintentos]. unfold bind at 1. unfold requests at 1.
  fold (peticion_post doc_id table_id payload).
  apply Z.eqb_neq in H1. apply Z.eqb_neq in H2. rewrite H1, H2.
  reflexivity.
Qed.

(** [k] attempts in a row answered 429. *)
Lemma bucle_reintentos_429s (batch : list fila) (payload : list fila_wire)
    (k intento : nat) (resto : list nat) (n : nat) :
  (forall j, j < k -> status_code (coda (n + j) (peticion_post doc_id table_id payload)) = 429%Z) ->
  bucle_reintentos coda doc_id table_id batch payload (seq intento k ++ resto) n
  = let '(r, n', ev) := bucle_reintentos coda doc_id table_id batch payload resto (n + k) in
    (r, n', intentos_limitados (peticion_post doc_id table_id payload) intento k ++ ev).
Proof.
  revert intento n. induction k as [|k IH]; intros intento n H.
  - simpl. rewrite Nat.add_0_r.
    destruct (bucle_reintentos coda doc_id table_id batch payload resto n) as [[r n'] ev].
    reflexivity.
  - cbn [seq app]. rewrite bucle_reintentos_429
      by (rewrite <- (Nat.add_0_r n); apply H; lia).
    rewrite IH by (intros j Hj; replace (S n + j) with (n + S j) by lia; apply H; lia).
    replace (S n + k) with (n + S k) by lia.
    destruct (bucle_reintentos coda doc_id table_id batch payload resto (n + S k))
      as [[r n'] ev].
    reflexivity.
Qed.

(** The loop never raises on a batch of clean dicts, and its first event,
    when there is an attempt to make, is the upload of the batch. *)
Lemma bucle_reintentos_termina (batch : list fila) (payload : list fila_wire)
    (intentos : list nat) (n : nat) :
  Forall fila_limpia batch ->
  exists n' ev,
    bucle_reintentos coda doc_id table_id batch payload intentos n = (Ok tt, n', ev) /\
    (intentos <> [] -> In (EvPeticion (peticion_post doc_id table_id payload)) ev).
Proof.
  intros Hb. destruct (nombres_limpios batch Hb) as [unidos Hj].
  revert n. induction intentos as [|intento resto IH]; intros n.
  - exists n, []. split; [reflexivity | congruence].
  - destruct (Z.eq_dec (status_code (coda n (peticion_post doc_id table_id payload))) 202) as [H202 | H202].
    + rewrite (bucle_reintentos_202 _ _ _ _ _ _ H202 Hj).
      eexists _, _. split; [reflexivity | intros _; left; reflexivity].
    + destruct (Z.eq_dec (status_code (coda n (peticion_post doc_id table_id payload))) 429) as [H429 | H429].
      * rewrite (bucle_reintentos_429 _ _ _ _ _ H429).
        destruct (IH (S n)) as [n' [ev [Hrun _]]]. rewrite Hrun.
        eexists _, _. split; [reflexivity | intros _; left; reflexivity].
      * rewrite (bucle_reintentos_otro _ _ _ _ _ H202 H429).
        eexists _, _. split; [reflexivity | intros _; left; reflexivity].
Qed.

(** With an attempt to make and no 429, the batch is uploaded once. *)
Lemma bucle_reintentos_sin_429 (batch : list fila) (payload : list fila_wire)
    (intento : nat) (resto : list nat) (n : nat) :
  Forall fila_limpia batch ->
  status_code (coda n (peticion_post doc_id table_id payload)) <> 429%Z ->
  exists m,
    bucle_reintentos coda doc_id table_id batch payload (intento :: resto) n
    = (Ok tt, S n, [ EvPeticion (peticion_post doc_id table_id payload); EvPrint m ]).
Proof.
  intros Hb H429. destruct (nombres_limpios batch Hb) as [unidos Hj].
  destruct (Z.eq_dec (status_code (coda n (peticion_post doc_id table_id payload))) 202) as [H202 | H202].
  - rewrite (bucle_reintentos_202 _ _ _ _ _ _ H202 Hj). eexists. reflexivity.
  - rewrite (bucle_reintentos_otro _ _ _ _ _ H202 H429). eexists. reflexivity.
Qed.

(** The body of the outer loop, on the dicts of a frame: the retry loop on
    the wire rows of the slice. *)
Lemma insertar_lote_filas_dicts (df : DataFrame) (batch_size i n : nat) :
  insertar_lote coda doc_id table_id (filas_dicts df) batch_size 5 i n
  = bucle_reintentos coda doc_id table_id
      (slice (filas_dicts df) i (i + batch_size))
      (map wire_de (slice (filas_dicts df) i (i + batch_size)))
      [0; 1; 2; 3; 4] n.
Proof.
  unfold insertar_lote, bind, lift.
  rewrite payload_limpio
    by (rewrite slice_filas_dicts; apply filas_dicts_limpias).
  change (range 0 5 1) with [0; 1; 2; 3; 4].
  destruct (bucle_reintentos _ _ _ _ _ _ n) as [[r n'] ev]. reflexivity.
Qed.

Lemma peticion_post_lote (df : DataFrame) (batch_size i : nat) :
  peticion_post doc_id table_id (map wire_de (slice (filas_dicts df) i (i + batch_size)))
  = peticion_lote doc_id table_id (filas_dicts df) batch_size i.
Proof.
  reflexivity.
Qed.

End InsertadorProps.

Section InsertadorLotes.

Variable coda : nat -> peticion -> respuesta.
Variables doc_id table_id : string.
Variable df : DataFrame.
Variable batch_size : nat.

Lemma insertar_lote_429s_202 (i n k : nat) :
  k < 5 ->
  (forall j, j < k ->
     status_code (coda (n + j) (peticion_lote doc_id table_id (filas_dicts df) batch_size i))
     = 429%Z) ->
  status_code (coda (n + k) (peticion_lote doc_id table_id (filas_dicts df) batch_size i))
  = 202%Z ->
  exists nombres,
    insertar_lote coda doc_id table_id (filas_dicts df) batch_size 5 i n
    = (Ok tt, S (n + k),
       intentos_limitados (peticion_lote doc_id table_id (filas_dicts df) batch_size i) 0 k
       ++ [ EvPeticion (peticion_lote doc_id table_id (filas_dicts df) batch_size i);
            EvPrint (MsgFilasInsertadas
                       (List.length (slice (filas_dicts df) i (i + batch_size))) nombres) ]).
Proof.
  intros Hk H429 H202.
  destruct (nombres_limpios (slice (filas_dicts df) i (i + batch_size))) as [nombres Hj].
  { rewrite slice_filas_dicts. apply filas_dicts_limpias. }
  exists nombres.
  rewrite insertar_lote_filas_dicts.
  replace [0; 1; 2; 3; 4] with (seq 0 k ++ seq k (5 - k))
    by (rewrite <- seq_app; replace (k + (5 - k)) with 5 by lia; reflexivity).
  rewrite bucle_reintentos_429s by exact H429.
  destruct (5 - k) as [|m] eqn:E; [lia|]. cbn [seq].
  rewrite (bucle_reintentos_202 _ _ _ _ _ _ _ _ _ H202 Hj).
  reflexivity.
Qed.

Lemma insertar_lote_cinco_429 (i n : nat) :
  (forall j, j < 5 ->
     status_code (coda (n + j) (peticion_lote doc_id table_id (filas_dicts df) batch_size i))
     = 429%Z) ->
  insertar_lote coda doc_id table_id (filas_dicts df) batch_size 5 i n
  = (Ok tt, n + 5,
     intentos_limitados (peticion_lote doc_id table_id (filas_dicts df) batch_size i) 0 5).
Proof.
  intros H429.
  rewrite insertar_lote_filas_dicts.
  change [0; 1; 2; 3; 4] with (seq 0 5 ++ []).
  rewrite bucle_reintentos_429s by exact H429.
  cbn [bucle_reintentos]. unfold ret. rewrite app_nil_r. reflexivity.
Qed.

(** Whatever the service answers, the loop over the batches does not
    raise, and it uploads every batch it is given. *)
Lemma por_cada_insertar_lote_termina (idxs : list nat) (n : nat) :
  exists n' ev,
    por_cada idxs (insertar_lote coda doc_id table_id (filas_dicts df) batch_size 5) n
    = (Ok tt, n', ev) /\
    (forall j, In j idxs ->
       In (EvPeticion (peticion_lote doc_id table_id (filas_dicts df) batch_size j)) ev).
Proof.
  revert n. induction idxs as [|i idxs IH]; intros n.
  - exists n, []. split; [reflexivity | intros j []].
  - destruct (bucle_reintentos_termina coda doc_id table_id
                (slice (filas_dicts df) i (i + batch_size))
                (map wire_de (slice (filas_dicts df) i (i + batch_size)))
                [0; 1; 2; 3; 4] n) as [n1 [ev1 [Hlote Hin1]]].
    { rewrite slice_filas_dicts. apply filas_dicts_limpias. }
    rewrite <- insertar_lote_filas_dicts in Hlote.
    destruct (IH n1) as [n' [ev [Hrun Hin]]].
    exists n', (ev1 ++ ev). split.
    + cbn [por_cada]. rewrite (bind_Ok _ _ _ _ _ _ _ _ Hlote), Hrun. reflexivity.
    + intros j [<- | Hj]; apply in_or_app.
      * left. apply Hin1. discriminate.
      * right. apply Hin. exact Hj.
Qed.

(** Without 429, every batch is uploaded once. *)
Lemma por_cada_insertar_lote_sin_429 (idxs : list nat) (n : nat) :
  (forall k p, p_metodo p = POST -> status_code (coda k p) <> 429%Z) ->
  exists ev,
    por_cada idxs (insertar_lote coda doc_id table_id (filas_dicts df) batch_size 5) n
    = (Ok tt, n + List.length idxs, ev) /\
    lotes_subidos ev
    = map (fun i => slice (map wire_de (filas_dicts df)) i (i + batch_size)) idxs /\
    List.length (filter (es_peticion POST) ev) = List.length idxs.
Proof.
  intros H429. revert n. induction idxs as [|i idxs IH]; intros n.
  - exists []. simpl. rewrite Nat.add_0_r. repeat split.
  - destruct (bucle_reintentos_sin_429 coda doc_id table_id
                (slice (filas_dicts df) i (i + batch_size))
                (map wire_de (slice (filas_dicts df) i (i + batch_size)))
                0 [1; 2; 3; 4] n) as [m Hlote].
    { rewrite slice_filas_dicts. apply filas_dicts_limpias. }
    { apply H429. reflexivity. }
    rewrite <- insertar_lote_filas_dicts in Hlote.
    destruct (IH (S n)) as [ev [Hrun [Hlotes Hcuenta]]].
    eexists. split; [|split].
    + cbn [por_cada]. rewrite (bind_Ok _ _ _ _ _ _ _ _ Hlote), Hrun.
      simpl. do 2 f_equal. lia.
    + simpl. rewrite Hlotes, slice_map. reflexivity.
    + simpl. rewrite Hcuenta. reflexivity.
Qed.

End InsertadorLotes.

Lemma por_cada_app A (cuerpo : A -> M unit) (l1 l2 : list A) (n n1 : nat)
    (ev1 : list evento) :
  por_cada l1 cuerpo n = (Ok tt, n1, ev1) ->
  por_cada (l1 ++ l2) cuerpo n
  = let '(r, n2, ev2) := por_cada l2 cuerpo n1 in (r, n2, ev1 ++ ev2).
Proof.
  revert n ev1. induction l1 as [|x l1 IH]; intros n ev1 H.
  - simpl in H. injection H as <- <-. simpl.
    destruct (por_cada l2 cuerpo n) as [[r n2] ev2]. reflexivity.
  - cbn [por_cada app] in *. unfold bind in *.
    destruct (cuerpo x n) as [[[[]|e] n0] e0]; [|discriminate].
    destruct (por_cada l1 cuerpo n0) as [[r1 n1'] e1] eqn:E.
    injection H as -> -> <-.
    rewrite (IH _ _ E).
    destruct (por_cada l2 cuerpo n1) as [[r n2] ev2].
    rewrite app_assoc. reflexivity.
Qed.

(** C3. A batch whose upload is answered 429 on attempts 0, 1 and 2 and 202
    on attempt 3 is accepted: the same request is sent four times, the
    program sleeps 1, 2 and 4 seconds after the first three, 7 in all, and
    the fourth is followed by the message of the inserted rows. *)
Theorem insertar_lote_tres_429_y_202
    (coda : nat -> peticion -> respuesta) (doc_id table_id : string)
    (df : DataFrame) (i n : nat) :
  (forall j, j < 3 ->
     status_code (coda (n + j) (peticion_lote doc_id table_id (filas_dicts df) 10 i))
     = 429%Z) ->
  status_code (coda (n + 3) (peticion_lote doc_id table_id (filas_dicts df) 10 i))
  = 202%Z ->
  exists nombres ev,
    insertar_lote coda doc_id table_id (filas_dicts df) 10 5 i n = (Ok tt, n + 4, ev) /\
    ev = intentos_limitados (peticion_lote doc_id table_id (filas_dicts df) 10 i) 0 3
         ++ [ EvPeticion (peticion_lote doc_id table_id (filas_dicts df) 10 i);
              EvPrint (MsgFilasInsertadas
                         (List.length (slice (filas_dicts df) i (i + 10))) nombres) ] /\
    esperas ev = [2 ^ 0; 2 ^ 1; 2 ^ 2] /\
    espera_total ev = 1 + 2 + 4.
Proof.
  intros H429 H202.
  destruct (insertar_lote_429s_202 coda doc_id table_id df 10 i n 3) as [nombres Hrun];
    [lia | exact H429 | exact H202 |].
  exists nombres. eexists. split; [|split; [reflexivity | split; reflexivity]].
  rewrite Hrun. do 2 f_equal. lia.
Qed.

Lemma insertar_lote_tres_429_y_202_ejemplo :
  exists nombres ev,
    insertar_lote (coda_limitado 0 3) "d" "t" (filas_dicts (df_ejemplo 12)) 10 5 0 0
    = (Ok tt, 0 + 4, ev) /\
    ev = intentos_limitados (peticion_lote "d" "t" (filas_dicts (df_ejemplo 12)) 10 0) 0 3
         ++ [ EvPeticion (peticion_lote "d" "t" (filas_dicts (df_ejemplo 12)) 10 0);
              EvPrint (MsgFilasInsertadas
                         (List.length (slice (filas_dicts (df_ejemplo 12)) 0 (0 + 10)))
                         nombres) ] /\
    esperas ev = [2 ^ 0; 2 ^ 1; 2 ^ 2] /\
    espera_total ev = 1 + 2 + 4.
Proof.
  apply (insertar_lote_tres_429_y_202 (coda_limitado 0 3) "d" "t" (df_ejemplo 12) 0 0).
  - intros j Hj. do 3 (destruct j as [|j]; [reflexivity|]). lia.
  - reflexivity.
Defined.

(** C9. A batch whose upload is answered 429 on all five attempts: the
    program sleeps after each of them, the last included, before the loop
    finds no attempt left.  It sleeps 1, 2, 4, 8 and 16 seconds, 31 in all;
    the last event of the batch is the sleep of 16 seconds. *)
Theorem insertar_lote_cinco_429_espera
    (coda : nat -> peticion -> respuesta) (doc_id table_id : string)
    (df : DataFrame) (i n : nat) :
  (forall j, j < 5 ->
     status_code (coda (n + j) (peticion_lote doc_id table_id (filas_dicts df) 10 i))
     = 429%Z) ->
  exists ev,
    insertar_lote coda doc_id table_id (filas_dicts df) 10 5 i n = (Ok tt, n + 5, ev) /\
    ev = intentos_limitados (peticion_lote doc_id table_id (filas_dicts df) 10 i) 0 5 /\
    esperas ev = [1; 2; 4; 8; 16] /\
    espera_total ev = 31 /\
    last ev (EvSleep 0) = EvSleep (2 ^ 4) /\
    List.length (filter (es_peticion POST) ev) = 5.
Proof.
  intros H429. eexists. split; [|split; [reflexivity | repeat split]].
  apply insertar_lote_cinco_429. exact H429.
Qed.

Lemma insertar_lote_cinco_429_espera_ejemplo :
  exists ev,
    insertar_lote (coda_limitado 0 5) "d" "t" (filas_dicts (df_ejemplo 12)) 10 5 0 0
    = (Ok tt, 0 + 5, ev) /\
    ev = intentos_limitados (peticion_lote "d" "t" (filas_dicts (df_ejemplo 12)) 10 0) 0 5 /\
    esperas ev = [1; 2; 4; 8; 16] /\
    espera_total ev = 31 /\
    last ev (EvSleep 0) = EvSleep (2 ^ 4) /\
    List.length (filter (es_peticion POST) ev) = 5.
Proof.
  apply (insertar_lote_cinco_429_espera (coda_limitado 0 5) "d" "t" (df_ejemplo 12) 0 0).
  intros j Hj. do 5 (destruct j as [|j]; [reflexivity|]). lia.
Defined.

(** C4. In a run of the inserter, a batch whose upload is answered 429 on
    all five attempts is given up: the run does not raise, the events of the
    batch are its five attempts and nothing else, and every batch after it
    is uploaded. *)
Theorem insertar_filas_en_bloques_lote_abandonado
    (coda : nat -> peticion -> respuesta) (doc_id table_id : string)
    (df : DataFrame) (n : nat) (pre : list nat) (i : nat) (post : list nat)
    (n0 : nat) (ev0 : list evento) :
  range 0 (List.length (filas_dicts df)) 10 = pre ++ i :: post ->
  por_cada pre (insertar_lote coda doc_id table_id (filas_dicts df) 10 5) n
  = (Ok tt, n0, ev0) ->
  (forall j, j < 5 ->
     status_code (coda (n0 + j) (peticion_lote doc_id table_id (filas_dicts df) 10 i))
     = 429%Z) ->
  exists n' ev_post,
    insertar_filas_en_bloques coda doc_id table_id (filas_dicts df) 10 5 n
    = (Ok tt, n',
       ev0 ++ intentos_limitados (peticion_lote doc_id table_id (filas_dicts df) 10 i) 0 5
           ++ ev_post) /\
    por_cada post (insertar_lote coda doc_id table_id (filas_dicts df) 10 5) (n0 + 5)
    = (Ok tt, n', ev_post) /\
    (forall j, In j post ->
       In (EvPeticion (peticion_lote doc_id table_id (filas_dicts df) 10 j)) ev_post).
Proof.
  intros Hrange Hpre H429.
  destruct (por_cada_insertar_lote_termina coda doc_id table_id df 10 post (n0 + 5))
    as [n' [ev_post [Hpost Hin]]].
  exists n', ev_post. split; [|split; [exact Hpost | exact Hin]].
  unfold insertar_filas_en_bloques. change (10 =? 0) with false. cbv iota.
  rewrite Hrange, (por_cada_app _ _ _ _ _ _ _ Hpre).
  cbn [por_cada].
  rewrite (bind_Ok _ _ _ _ _ _ _ _
             (insertar_lote_cinco_429 coda doc_id table_id df 10 i n0 H429)).
  rewrite Hpost. reflexivity.
Qed.

Lemma insertar_filas_en_bloques_lote_abandonado_ejemplo :
  exists n' ev_post,
    insertar_filas_en_bloques (coda_limitado 1 5) "d" "t" (filas_dicts (df_ejemplo 25)) 10 5 0
    = (Ok tt, n',
       snd (por_cada [0] (insertar_lote (coda_limitado 1 5) "d" "t"
                            (filas_dicts (df_ejemplo 25)) 10 5) 0)
       ++ intentos_limitados (peticion_lote "d" "t" (filas_dicts (df_ejemplo 25)) 10 10) 0 5
       ++ ev_post) /\
    por_cada [20] (insertar_lote (coda_limitado 1 5) "d" "t"
                     (filas_dicts (df_ejemplo 25)) 10 5) (1 + 5)
    = (Ok tt, n', ev_post) /\
    (forall j, In j [20] ->
       In (EvPeticion (peticion_lote "d" "t" (filas_dicts (df_ejemplo 25)) 10 j)) ev_post).
Proof.
  apply (insertar_filas_en_bloques_lote_abandonado (coda_limitado 1 5) "d" "t"
           (df_ejemplo 25) 0 [0] 10 [20] 1).
  - reflexivity.
  - reflexivity.
  - intros j Hj. do 5 (destruct j as [|j]; [reflexivity|]). lia.
Defined.

(** C6, as stated, fails: one row whose upload is answered 429 and then 202
    is uploaded twice, and ceil(1/10) is 1. *)
Lemma insertar_filas_en_bloques_reintento_mas_peticiones :
  List.length
    (filter (es_peticion POST)
       (snd (insertar_filas_en_bloques (coda_limitado 0 1) "d" "t"
               (filas_dicts (df_ejemplo 1)) 10 5 0))) = 2 /\
  ceil_div (List.length (df_ejemplo 1)) 10 = 1.
Proof.
  split; reflexivity.
Qed.

(** C6, amended. When no upload is answered 429, the inserter sends exactly
    ceil(N/10) POST requests for N rows; each carries between 1 and 10 rows,
    and together, in order, they carry the wire rows of the sequence.  With
    25 rows the requests carry 10, 10 and 5 rows. *)
Theorem insertar_filas_en_bloques_lotes
    (coda : nat -> peticion -> respuesta) (doc_id table_id : string)
    (df : DataFrame) (n : nat) :
  (forall k p, p_metodo p = POST -> status_code (coda k p) <> 429%Z) ->
  exists n' ev,
    insertar_filas_en_bloques coda doc_id table_id (filas_dicts df) 10 5 n
    = (Ok tt, n', ev) /\
    List.length (filter (es_peticion POST) ev) = ceil_div (List.length df) 10 /\
    List.length (lotes_subidos ev) = ceil_div (List.length df) 10 /\
    Forall (fun lote : list fila_wire => 1 <= List.length lote <= 10) (lotes_subidos ev) /\
    List.concat (lotes_subidos ev) = map wire_de (filas_dicts df) /\
    (List.length df = 25 ->
     map (@List.length fila_wire) (lotes_subidos ev) = [10; 10; 5]).
Proof.
  intros H429.
  destruct (por_cada_insertar_lote_sin_429 coda doc_id table_id df 10
              (range 0 (List.length (filas_dicts df)) 10) n H429)
    as [ev [Hrun [Hlotes Hcuenta]]].
  assert (Hlen : List.length (filas_dicts df) = List.length df)
    by (unfold filas_dicts; apply length_map).
  assert (Hlen' : List.length (map wire_de (filas_dicts df)) = List.length df)
    by (rewrite length_map; exact Hlen).
  eexists _, ev. split; [|split; [|split; [|split; [|split]]]].
  - unfold insertar_filas_en_bloques. change (10 =? 0) with false. cbv iota.
    exact Hrun.
  - rewrite Hcuenta, range_length, Hlen by lia. reflexivity.
  - rewrite Hlotes, length_map, range_length, Hlen by lia. reflexivity.
  - rewrite Hlotes, Hlen, <- Hlen'. apply slices_acotados. lia.
  - rewrite Hlotes, Hlen, <- Hlen'. apply concat_slices. lia.
  - intros H25. rewrite Hlotes, Hlen, H25.
    change (range 0 25 10) with [0; 10; 20]. simpl.
    rewrite !slice_length, Hlen', H25. reflexivity.
Qed.

Lemma insertar_filas_en_bloques_lotes_ejemplo :
  exists n' ev,
    insertar_filas_en_bloques (coda_fijo 202 []) "d" "t" (filas_dicts (df_ejemplo 25)) 10 5 0
    = (Ok tt, n', ev) /\
    List.length (filter (es_peticion POST) ev) = ceil_div (List.length (df_ejemplo 25)) 10 /\
    List.length (lotes_subidos ev) = ceil_div (List.length (df_ejemplo 25)) 10 /\
    Forall (fun lote : list fila_wire => 1 <= List.length lote <= 10) (lotes_subidos ev) /\
    List.concat (lotes_subidos ev) = map wire_de (filas_dicts (df_ejemplo 25)) /\
    (List.length (df_ejemplo 25) = 25 ->
     map (@List.length fila_wire) (lotes_subidos ev) = [10; 10; 5]).
Proof.
  apply (insertar_filas_en_bloques_lotes (coda_fijo 202 []) "d" "t" (df_ejemplo 25) 0).
  intros k p _. simpl. discriminate.
Defined.

(* ------------------------------------------------------------------ *)
(** * Further properties *)

(** ** The query, work by work *)








(** X2. In every state of the three tables, duplicate keys included, the
    extractor returns without raising and its frame has at least as many
    rows as there are works. *)
Theorem obtener_obras_orm_no_pierde_obras
    (parse_datetime : list celda_fecha -> celda_fecha -> option Timestamp)
    (db : BaseDatos) :
  exists df : DataFrame,
    obtener_obras_orm parse_datetime db = Ok df /\
    List.length (obras db) <= List.length df.
Proof.
  rewrite obtener_obras_orm_filas. eexists. split; [reflexivity|].
  rewrite length_map. unfold consulta. rewrite length_map.
  eapply Nat.le_trans; [|apply left_outer_join_no_pierde].
  apply left_outer_join_no_pierde.
Qed.

(** X3. Row [i] of the frame is row [i] of the query: its text columns are
    unchanged; a NULL date is absent whatever the converter would say of it;
    a date that converts is present, and the year is the year of the start
    date; the end date has no part in the year. *)
Theorem obtener_obras_orm_fila_a_fila
    (parse_datetime : list celda_fecha -> celda_fecha -> option Timestamp)
    (db : BaseDatos) (i : nat) (q : FilaConsulta) :
  nth_error (consulta db) i = Some q ->
  exists (df : DataFrame) (s : SyncRow),
    obtener_obras_orm parse_datetime db = Ok df /\
    List.length df = List.length (consulta db) /\
    nth_error df i = Some s /\
    (s_nombre s, s_proyecto s, s_estado s) = (q_nombre q, q_proyecto q, q_estado q) /\
    (s_responsable s, s_correo s, s_fase s) = (q_responsable q, q_correo q, q_fase q) /\
    (q_inicio q = CNull -> s_inicio s = None /\ s_anio s = None) /\
    (q_inicio q <> CNull ->
     s_inicio s = parse_datetime (map q_inicio (consulta db)) (q_inicio q) /\
     s_anio s = option_map year (parse_datetime (map q_inicio (consulta db)) (q_inicio q))) /\
    (q_fin q = CNull -> s_fin s = None) /\
    (q_fin q <> CNull ->
     s_fin s = parse_datetime (map q_fin (consulta db)) (q_fin q)).
Proof.
  intros Hq. rewrite obtener_obras_orm_filas.
  eexists _, (fila_sync _ _ q).
  split; [reflexivity|]. split; [apply length_map|].
  split; [rewrite nth_error_map, Hq; reflexivity|].
  split; [reflexivity|]. split; [reflexivity|].
  simpl. unfold coerce.
  split; [intros ->; split; reflexivity|].
  split; [intros H; destruct (q_inicio q); [congruence | split; reflexivity | split; reflexivity]|].
  split; [intros ->; reflexivity|].
  intros H; destruct (q_fin q); [congruence | reflexivity | reflexivity].
Qed.

Lemma obtener_obras_orm_fila_a_fila_ejemplo :
  exists (df : DataFrame) (s : SyncRow),
    obtener_obras_orm parse_datetime_iso db_ejemplo = Ok df /\
    List.length df = List.length (consulta db_ejemplo) /\
    nth_error df 1 = Some s /\
    (s_nombre s, s_proyecto s, s_estado s) = (Some "Puente", None, Some "Activa") /\
    (s_responsable s, s_correo s, s_fase s) = (None, None, None) /\
    (CTexto "2024-03-15" = CNull -> s_inicio s = None /\ s_anio s = None) /\
    (CTexto "2024-03-15" <> CNull ->
     s_inicio s = parse_datetime_iso (map q_inicio (consulta db_ejemplo)) (CTexto "2024-03-15") /\
     s_anio s = option_map year
                  (parse_datetime_iso (map q_inicio (consulta db_ejemplo)) (CTexto "2024-03-15"))) /\
    (CNull = CNull -> s_fin s = None) /\
    (CNull <> CNull ->
     s_fin s = parse_datetime_iso (map q_fin (consulta db_ejemplo)) CNull).
Proof.
  apply (obtener_obras_orm_fila_a_fila parse_datetime_iso db_ejemplo 1
           {| q_nombre := Some "Puente"; q_proyecto := None;
              q_estado := Some "Activa"; q_inicio := CTexto "2024-03-15";
              q_fin := CNull; q_responsable := None; q_correo := None;
              q_fase := None |}).
  reflexivity.
Defined.

(** ** Rows as dictionaries, row by row *)

Lemma dropna_claves_incl (f : fila) (k : string) :
  In k (map fst (dropna f)) -> In k (map fst f).
Proof.
  intros H. apply in_map_iff in H. destruct H as [cv [Hk Hcv]].
  apply filter_In in Hcv. apply in_map_iff. exists cv. tauto.
Qed.

(** Looking a key up after [dropna]: the value, or the default when the
    value is null. *)
Lemma dict_get_dropna (f : fila) (k : string) (v d : valor) :
  NoDup (map fst f) ->
  In (k, v) f ->
  dict_get (dropna f) k d = if isna v then d else v.
Proof.
  induction f as [|[k' v'] f IH]; simpl; intros Hnd Hin; [contradiction|].
  inversion Hnd as [|? ? Hnotin Hnd']; subst.
  destruct Hin as [Heq | Hin].
  - injection Heq as -> ->.
    destruct (isna v); simpl.
    + apply dict_get_ausente. intros H. apply Hnotin, dropna_claves_incl, H.
    + rewrite String.eqb_refl. reflexivity.
  - assert (Hne : k' <> k).
    { intros ->. apply Hnotin. apply in_map_iff. exists (k, v). split; [reflexivity | exact Hin]. }
    destruct (negb (isna v')); simpl.
    + destruct (String.eqb_spec k' k) as [He | _]; [contradiction|].
      apply IH; assumption.
    + apply IH; assumption.
Qed.

(** X4. [filas_dicts] makes one dict per row of the frame, in order.  The
    keys of the dict of a row are the labels of its fields that have a
    value, and looking a column up in it gives the value of the field, or
    the default when the field has none. *)
Theorem filas_dicts_fila_a_fila (df : DataFrame) (i : nat) (s : SyncRow) :
  nth_error df i = Some s ->
  List.length (filas_dicts df) = List.length df /\
  exists f : fila,
    nth_error (filas_dicts df) i = Some f /\
    map fst f = campos_presentes s /\
    (forall k v d, In (k, v) (iterrows_fila s) ->
       dict_get f k d = if isna v then d else v).
Proof.
  intros Hs. split; [apply length_map|].
  exists (dropna (iterrows_fila s)). split; [|split].
  - unfold filas_dicts. rewrite nth_error_map, Hs. reflexivity.
  - apply dropna_campos_presentes.
  - intros k v d Hin. apply dict_get_dropna; [apply iterrows_fila_claves_NoDup | exact Hin].
Qed.

Lemma filas_dicts_fila_a_fila_ejemplo :
  List.length (filas_dicts df_con_vacia) = List.length df_con_vacia /\
  exists f : fila,
    nth_error (filas_dicts df_con_vacia) 2 = Some f /\
    map fst f = campos_presentes (solo_nombre_y_estado "Canal" "Pausada") /\
    (forall k v d, In (k, v) (iterrows_fila (solo_nombre_y_estado "Canal" "Pausada")) ->
       dict_get f k d = if isna v then d else v).
Proof.
  apply (filas_dicts_fila_a_fila df_con_vacia 2 (solo_nombre_y_estado "Canal" "Pausada")).
  reflexivity.
Defined.

(** ** [serializar_fila] on its own *)

Lemma serializar_fila_sin_NaT (f : fila) :
  Forall (fun cv => snd cv <> VNaT) f ->
  serializar_fila f = Ok (wire_de f).
Proof.
  intros Hf. unfold serializar_fila, wire_de.
  rewrite mapR_Ok
    with (g := fun cv => {| column := fst cv;
                            value := match snd cv with
                                     | VTimestamp t => VStr (strftime_ymd t)
                                     | v => v
                                     end |}).
  - reflexivity.
  - intros [c v] Hin. rewrite Forall_forall in Hf. specialize (Hf _ Hin).
    simpl in *. destruct v; simpl; try reflexivity. congruence.
Qed.

(** X5. [serializar_fila] does not filter.  On a dict that holds no NaT it
    returns one cell per item, with the keys in order; a value that is not a
    Timestamp, [None] and NaN included, is the value of its cell, and a
    Timestamp becomes the text of its date.  Leaving absent fields out is
    the work of the [dropna] of the caller. *)
Theorem serializar_fila_no_filtra (f : fila) :
  Forall (fun cv => snd cv <> VNaT) f ->
  exists w : fila_wire,
    serializar_fila f = Ok w /\
    map column (cells w) = map fst f /\
    (forall c v, In (c, v) f -> (forall t, v <> VTimestamp t) ->
       In {| column := c; value := v |} (cells w)) /\
    (forall c t, In (c, VTimestamp t) f ->
       In {| column := c; value := VStr (strftime_ymd t) |} (cells w)).
Proof.
  intros Hf. exists (wire_de f). split; [|split; [|split]].
  - apply serializar_fila_sin_NaT. exact Hf.
  - apply wire_de_columnas.
  - intros c v Hin Hv. unfold wire_de. simpl. apply in_map_iff.
    exists (c, v). split; [|exact Hin]. simpl.
    destruct v; try reflexivity. exfalso. apply (Hv t). reflexivity.
  - intros c t Hin. unfold wire_de. simpl. apply in_map_iff.
    exists (c, VTimestamp t). split; [reflexivity | exact Hin].
Qed.

Lemma serializar_fila_no_filtra_ejemplo :
  exists w : fila_wire,
    serializar_fila [("Proyecto", VNone); ("Estado", VStr "Activa")] = Ok w /\
    map column (cells w) = map fst [("Proyecto", VNone); ("Estado", VStr "Activa")] /\
    (forall c v, In (c, v) [("Proyecto", VNone); ("Estado", VStr "Activa")] ->
       (forall t, v <> VTimestamp t) ->
       In {| column := c; value := v |} (cells w)) /\
    (forall c t, In (c, VTimestamp t) [("Proyecto", VNone); ("Estado", VStr "Activa")] ->
       In {| column := c; value := VStr (strftime_ymd t) |} (cells w)).
Proof.
  apply (serializar_fila_no_filtra [("Proyecto", VNone); ("Estado", VStr "Activa")]).
  repeat constructor; simpl; discriminate.
Defined.

(* ------------------------------------------------------------------ *)
(** ** What a computation never produces *)

Lemma solo_ret A (P : evento -> bool) (a : A) : solo P (ret a).
Proof. intros n. reflexivity. Qed.

Lemma solo_raise A (P : evento -> bool) (e : excepcion) : solo P (@raise A e).
Proof. intros n. reflexivity. Qed.

Lemma solo_lift A (P : evento -> bool) (r : resultado A) : solo P (lift r).
Proof. intros n. reflexivity. Qed.

Lemma solo_print (P : evento -> bool) (m : mensaje) :
  P (EvPrint m) = true -> solo P (print m).
Proof. intros H n. simpl. rewrite H. reflexivity. Qed.

Lemma solo_sleep (P : evento -> bool) (t : nat) :
  P (EvSleep t) = true -> solo P (sleep t).
Proof. intros H n. simpl. rewrite H. reflexivity. Qed.

Lemma solo_requests (coda : nat -> peticion -> respuesta) (P : evento -> bool)
    (m : metodo) (url : string) (json : json_peticion) :
  P (EvPeticion {| p_metodo := m; p_url := url; p_json := json |}) = true ->
  solo P (requests coda m url json).
Proof. intros H n. simpl. rewrite H. reflexivity. Qed.

Lemma solo_bind A B (P : evento -> bool) (m : M A) (k : A -> M B) :
  solo P m -> (forall a, solo P (k a)) -> solo P (bind m k).
Proof.
  intros Hm Hk n. unfold bind. specialize (Hm n).
  destruct (m n) as [[[a|e] n'] ev]; simpl in *.
  - specialize (Hk a n'). destruct (k a n') as [[r n''] ev']. simpl in *.
    rewrite forallb_app, Hm, Hk. reflexivity.
  - exact Hm.
Qed.

Lemma solo_por_cada A (P : evento -> bool) (l : list A) (cuerpo : A -> M unit) :
  (forall x, solo P (cuerpo x)) -> solo P (por_cada l cuerpo).
Proof.
  intros H. induction l as [|x l IH]; simpl.
  - apply solo_ret.
  - apply solo_bind; [apply H | intros _; exact IH].
Qed.

Lemma solo_raise_for_status (P : evento -> bool) (r : respuesta) :
  solo P (raise_for_status r).
Proof.
  unfold raise_for_status. destruct (_ && _); [apply solo_raise | apply solo_ret].
Qed.

Lemma solo_json_items (P : evento -> bool) (r : respuesta) : solo P (json_items r).
Proof.
  unfold json_items. destruct (cuerpo r) as [|[items|]];
    [apply solo_raise | apply solo_ret | apply solo_ret].
Qed.

Ltac solo_paso :=
  first
    [ apply solo_ret | apply solo_raise | apply solo_lift
    | apply solo_raise_for_status | apply solo_json_items
    | apply solo_print; reflexivity | apply solo_sleep; reflexivity
    | apply solo_requests; reflexivity
    | apply solo_bind; [|intro] ].

Section Nunca.

Variable coda : nat -> peticion -> respuesta.

Lemma solo_buscar_documento (P : evento -> bool) (nombre : string) (docs : list item) :
  (forall m, P (EvPrint m) = true) -> solo P (buscar_documento nombre docs).
Proof.
  intros HP. induction docs as [|d docs IH]; simpl.
  - apply solo_raise.
  - destruct (String.eqb (item_name d) nombre); [|exact IH].
    apply solo_bind; [apply solo_print, HP | intros _; apply solo_ret].
Qed.

Lemma solo_buscar_tabla (P : evento -> bool) (nombre : string) (tablas : list item) :
  (forall m, P (EvPrint m) = true) -> solo P (buscar_tabla nombre tablas).
Proof.
  intros HP. induction tablas as [|d tablas IH]; simpl.
  - apply solo_raise.
  - destruct (String.eqb (item_name d) nombre); [|exact IH].
    apply solo_bind; [apply solo_print, HP | intros _; apply solo_ret].
Qed.

(** The locator only prints and sends GET requests. *)
Lemma solo_obtener_documento_id_por_nombre (nombre : string) :
  solo (fun e => negb (es_mutacion e)) (obtener_documento_id_por_nombre coda nombre).
Proof.
  unfold obtener_documento_id_por_nombre. repeat solo_paso.
  apply solo_buscar_documento. reflexivity.
Qed.

Lemma solo_obtener_table_id (doc_id nombre : string) :
  solo (fun e => negb (es_mutacion e)) (obtener_table_id coda doc_id nombre).
Proof.
  unfold obtener_table_id. repeat solo_paso.
  apply solo_buscar_tabla. reflexivity.
Qed.

(** The purger never sends a POST and never sleeps. *)
Lemma solo_eliminar_todas_las_filas (doc_id table_id : string) :
  solo (fun e => match e with
                 | EvSleep _ => false
                 | _ => negb (es_peticion POST e)
                 end)
       (eliminar_todas_las_filas coda doc_id table_id).
Proof.
  unfold eliminar_todas_las_filas. repeat solo_paso.
  apply solo_por_cada. intros i. unfold eliminar_lote. repeat solo_paso.
  destruct (status_code _ =? 202)%Z; solo_paso.
Qed.

(** The inserter sends no GET and no DELETE, whatever its rows. *)
Lemma solo_bucle_reintentos (doc_id table_id : string) (batch : list fila)
    (payload : list fila_wire) (intentos : list nat) :
  solo (fun e => negb (es_peticion GET e) && negb (es_peticion DELETE e))
       (bucle_reintentos coda doc_id table_id batch payload intentos).
Proof.
  induction intentos as [|intento resto IH]; cbn [bucle_reintentos].
  - apply solo_ret.
  - repeat solo_paso.
    destruct (status_code _ =? 202)%Z; [repeat solo_paso|].
    destruct (status_code _ =? 429)%Z; [|solo_paso].
    repeat solo_paso. exact IH.
Qed.

Lemma solo_insertar_filas_en_bloques (doc_id table_id : string) (filas : list fila)
    (batch_size max_reintentos : nat) :
  solo (fun e => negb (es_peticion GET e) && negb (es_peticion DELETE e))
       (insertar_filas_en_bloques coda doc_id table_id filas batch_size max_reintentos).
Proof.
  unfold insertar_filas_en_bloques. destruct (batch_size =? 0); [apply solo_raise|].
  apply solo_por_cada. intros i. unfold insertar_lote. repeat solo_paso.
  apply solo_bucle_reintentos.
Qed.

End Nunca.

Lemma solo_impl A (P Q : evento -> bool) (m : M A) :
  (forall e, P e = true -> Q e = true) -> solo P m -> solo Q m.
Proof.
  intros H Hm n. specialize (Hm n).
  rewrite forallb_forall in *. intros e He. apply H, Hm, He.
Qed.

Lemma purga_antes_bind A B (m : M A) (k : A -> M B) :
  solo (fun e => negb (es_peticion POST e)) m ->
  (forall a, purga_antes_de_insercion (k a)) ->
  purga_antes_de_insercion (bind m k).
Proof.
  intros Hm Hk n. unfold bind. specialize (Hm n).
  destruct (m n) as [[[a|e] n'] ev]; simpl in *.
  - destruct (Hk a n') as [x [y [Hxy [Hx Hy]]]].
    destruct (k a n') as [[r n''] ev']. simpl in *. subst ev'.
    exists (ev ++ x), y. split; [apply app_assoc|]. split; [|exact Hy].
    unfold sin_peticion. rewrite forallb_app, Hm. exact Hx.
  - exists ev, []. split; [symmetry; apply app_nil_r|]. split; [exact Hm | reflexivity].
Qed.

Lemma purga_antes_de_solo A (m : M A) :
  solo (fun e => negb (es_peticion DELETE e)) m ->
  purga_antes_de_insercion m.
Proof.
  intros Hm n. exists [], (snd (m n)). split; [reflexivity|].
  split; [reflexivity | apply Hm].
Qed.

(** X16. Whatever the service answers and wherever the run ends, the events
    of [__main__] are events without POST followed by events without DELETE:
    no row is deleted once the first upload has been sent. *)
Theorem main_elimina_antes_de_insertar
    (coda : nat -> peticion -> respuesta)
    (parse_datetime : list celda_fecha -> celda_fecha -> option Timestamp)
    (db : BaseDatos) (nombre_documento nombre_tabla : string) (n : nat) :
  exists a b : list evento,
    snd (main coda parse_datetime db nombre_documento nombre_tabla n) = a ++ b /\
    sin_peticion POST a = true /\
    sin_peticion DELETE b = true.
Proof.
  revert n. change (purga_antes_de_insercion
                      (main coda parse_datetime db nombre_documento nombre_tabla)).
  unfold main.
  apply purga_antes_bind.
  { eapply solo_impl; [|apply solo_obtener_documento_id_por_nombre].
    intros e. unfold es_mutacion. destruct (es_peticion POST e);
      [rewrite orb_true_r; discriminate | reflexivity]. }
  intros doc_id. apply purga_antes_bind.
  { eapply solo_impl; [|apply solo_obtener_table_id].
    intros e. unfold es_mutacion. destruct (es_peticion POST e);
      [rewrite orb_true_r; discriminate | reflexivity]. }
  intros table_id. apply purga_antes_bind; [apply solo_lift|].
  intros df. apply purga_antes_bind; [apply solo_print; reflexivity|].
  intros _. apply purga_antes_bind.
  { eapply solo_impl; [|apply solo_eliminar_todas_las_filas].
    intros e. destruct e; [tauto | discriminate | tauto]. }
  intros _. apply purga_antes_de_solo.
  eapply solo_impl; [|apply solo_insertar_filas_en_bloques].
  intros e H. apply andb_true_iff in H. tauto.
Qed.

(* ------------------------------------------------------------------ *)
(** ** Listings that fail *)

Lemma bind_lift_Ok A B (a : A) (k : A -> M B) (n : nat) :
  bind (lift (Ok a)) k n = k a n.
Proof.
  unfold bind, lift. destruct (k a n) as [[r n'] ev]. reflexivity.
Qed.

Lemma bind_print B (m : mensaje) (k : unit -> M B) (n : nat) :
  bind (print m) k n = let '(r, n', ev) := k tt n in (r, n', EvPrint m :: ev).
Proof.
  unfold bind, print. destruct (k tt n) as [[r n'] ev]. reflexivity.
Qed.

Section ListadosFallidos.

Variable coda : nat -> peticion -> respuesta.

Lemma listar_error_http A (url : string) (n : nat) (k : list item -> M A) :
  es_error_http
    (status_code (coda n {| p_metodo := GET; p_url := url; p_json := SinJson |})) = true ->
  (r <- requests coda GET url SinJson ;;
   raise_for_status r ;;
   xs <- json_items r ;;
   k xs) n
  = (Raise (HTTPError
              (status_code (coda n {| p_metodo := GET; p_url := url; p_json := SinJson |}))),
     S n, [EvPeticion {| p_metodo := GET; p_url := url; p_json := SinJson |}]).
Proof.
  intros H. unfold es_error_http in H.
  unfold bind, requests, raise_for_status. rewrite H. reflexivity.
Qed.

Lemma listar_no_json A (url : string) (n : nat) (k : list item -> M A) :
  es_error_http
    (status_code (coda n {| p_metodo := GET; p_url := url; p_json := SinJson |})) = false ->
  cuerpo (coda n {| p_metodo := GET; p_url := url; p_json := SinJson |}) = NoEsJson ->
  (r <- requests coda GET url SinJson ;;
   raise_for_status r ;;
   xs <- json_items r ;;
   k xs) n
  = (Raise JSONDecodeError, S n,
     [EvPeticion {| p_metodo := GET; p_url := url; p_json := SinJson |}]).
Proof.
  intros H Hc. unfold es_error_http in H.
  unfold bind, requests, raise_for_status, json_items. rewrite H, Hc. reflexivity.
Qed.

Lemma eliminar_todas_las_filas_error_http (doc_id table_id : string) (n : nat) :
  es_error_http (status_code (coda n (peticion_rows doc_id table_id))) = true ->
  eliminar_todas_las_filas coda doc_id table_id n
  = (Raise (HTTPError (status_code (coda n (peticion_rows doc_id table_id)))), S n,
     [EvPrint MsgEliminando; EvPeticion (peticion_rows doc_id table_id)]).
Proof.
  intros H. unfold eliminar_todas_las_filas. rewrite bind_print.
  rewrite (listar_error_http _ (url_rows doc_id table_id) n _ H). reflexivity.
Qed.

End ListadosFallidos.

(** X7. A listing answered with a 4xx or 5xx status makes the function that
    asked for it raise [HTTPError] with that status, after that one request:
    the listing is not asked for again, its body is not read, and the purger
    sends no DELETE. *)
Theorem listado_con_error_http
    (coda : nat -> peticion -> respuesta)
    (nombre_documento nombre_tabla doc_id table_id : string) (n m k : nat) :
  es_error_http (status_code (coda n peticion_docs)) = true ->
  es_error_http (status_code (coda m (peticion_tables doc_id))) = true ->
  es_error_http (status_code (coda k (peticion_rows doc_id table_id))) = true ->
  obtener_documento_id_por_nombre coda nombre_documento n
  = (Raise (HTTPError (status_code (coda n peticion_docs))), S n,
     [EvPrint MsgBuscandoDocumento; EvPeticion peticion_docs]) /\
  obtener_table_id coda doc_id nombre_tabla m
  = (Raise (HTTPError (status_code (coda m (peticion_tables doc_id)))), S m,
     [EvPrint MsgBuscandoTabla; EvPeticion (peticion_tables doc_id)]) /\
  eliminar_todas_las_filas coda doc_id table_id k
  = (Raise (HTTPError (status_code (coda k (peticion_rows doc_id table_id)))), S k,
     [EvPrint MsgEliminando; EvPeticion (peticion_rows doc_id table_id)]).
Proof.
  intros Hd Ht Hr. split; [|split].
  - unfold obtener_documento_id_por_nombre. rewrite bind_print.
    rewrite (listar_error_http coda _ url_docs n _ Hd). reflexivity.
  - unfold obtener_table_id. rewrite bind_print.
    rewrite (listar_error_http coda _ (url_tables doc_id) m _ Ht). reflexivity.
  - apply eliminar_todas_las_filas_error_http. exact Hr.
Qed.

Lemma listado_con_error_http_ejemplo :
  obtener_documento_id_por_nombre (coda_fijo 503 []) "Obras" 0
  = (Raise (HTTPError 503), 1,
     [EvPrint MsgBuscandoDocumento; EvPeticion peticion_docs]) /\
  obtener_table_id (coda_fijo 503 []) "d1" "Avance" 0
  = (Raise (HTTPError 503), 1,
     [EvPrint MsgBuscandoTabla; EvPeticion (peticion_tables "d1")]) /\
  eliminar_todas_las_filas (coda_fijo 503 []) "d1" "t1" 0
  = (Raise (HTTPError 503), 1,
     [EvPrint MsgEliminando; EvPeticion (peticion_rows "d1" "t1")]).
Proof.
  apply (listado_con_error_http (coda_fijo 503 []) "Obras" "Avance" "d1" "t1" 0 0 0);
    reflexivity.
Defined.

(** X8. A listing answered without error status but with a body that is not
    JSON makes the function that asked for it raise [JSONDecodeError], after
    that one request; the purger sends no DELETE. *)
Theorem listado_que_no_es_json
    (coda : nat -> peticion -> respuesta)
    (nombre_documento nombre_tabla doc_id table_id : string) (n m k : nat) :
  es_error_http (status_code (coda n peticion_docs)) = false ->
  cuerpo (coda n peticion_docs) = NoEsJson ->
  es_error_http (status_code (coda m (peticion_tables doc_id))) = false ->
  cuerpo (coda m (peticion_tables doc_id)) = NoEsJson ->
  es_error_http (status_code (coda k (peticion_rows doc_id table_id))) = false ->
  cuerpo (coda k (peticion_rows doc_id table_id)) = NoEsJson ->
  obtener_documento_id_por_nombre coda nombre_documento n
  = (Raise JSONDecodeError, S n,
     [EvPrint MsgBuscandoDocumento; EvPeticion peticion_docs]) /\
  obtener_table_id coda doc_id nombre_tabla m
  = (Raise JSONDecodeError, S m,
     [EvPrint MsgBuscandoTabla; EvPeticion (peticion_tables doc_id)]) /\
  eliminar_todas_las_filas coda doc_id table_id k
  = (Raise JSONDecodeError, S k,
     [EvPrint MsgEliminando; EvPeticion (peticion_rows doc_id table_id)]).
Proof.
  intros Hd Hdc Ht Htc Hr Hrc. split; [|split].
  - unfold obtener_documento_id_por_nombre. rewrite bind_print.
    rewrite (listar_no_json coda _ url_docs n _ Hd Hdc). reflexivity.
  - unfold obtener_table_id. rewrite bind_print.
    rewrite (listar_no_json coda _ (url_tables doc_id) m _ Ht Htc). reflexivity.
  - unfold eliminar_todas_las_filas. rewrite bind_print.
    rewrite (listar_no_json coda _ (url_rows doc_id table_id) k _ Hr Hrc). reflexivity.
Qed.

Lemma listado_que_no_es_json_ejemplo :
  obtener_documento_id_por_nombre coda_no_json "Obras" 0
  = (Raise JSONDecodeError, 1,
     [EvPrint MsgBuscandoDocumento; EvPeticion peticion_docs]) /\
  obtener_table_id coda_no_json "d1" "Avance" 0
  = (Raise JSONDecodeError, 1,
     [EvPrint MsgBuscandoTabla; EvPeticion (peticion_tables "d1")]) /\
  eliminar_todas_las_filas coda_no_json "d1" "t1" 0
  = (Raise JSONDecodeError, 1,
     [EvPrint MsgEliminando; EvPeticion (peticion_rows "d1" "t1")]).
Proof.
  apply (listado_que_no_es_json coda_no_json "Obras" "Avance" "d1" "t1" 0 0 0);
    reflexivity.
Defined.

(** X9. When the document and the table are found but the listing of the
    rows is answered with a 4xx or 5xx status, the run ends with [HTTPError]
    in the purger: nothing has been deleted and nothing is uploaded. *)
Theorem main_listado_de_filas_con_error
    (coda : nat -> peticion -> respuesta)
    (parse_datetime : list celda_fecha -> celda_fecha -> option Timestamp)
    (db : BaseDatos) (nombre_documento nombre_tabla : string) (n : nat)
    (doc_id : string) (n1 : nat) (ev1 : list evento)
    (table_id : string) (n2 : nat) (ev2 : list evento) :
  obtener_documento_id_por_nombre coda nombre_documento n = (Ok doc_id, n1, ev1) ->
  obtener_table_id coda doc_id nombre_tabla n1 = (Ok table_id, n2, ev2) ->
  es_error_http (status_code (coda n2 (peticion_rows doc_id table_id))) = true ->
  exists ev,
    main coda parse_datetime db nombre_documento nombre_tabla n
    = (Raise (HTTPError (status_code (coda n2 (peticion_rows doc_id table_id)))), S n2, ev) /\
    sin_mutaciones ev = true.
Proof.
  intros Hdoc Htab Herr. eexists. split.
  - unfold main. rewrite (bind_Ok _ _ _ _ _ _ _ _ Hdoc).
    rewrite (bind_Ok _ _ _ _ _ _ _ _ Htab).
    rewrite obtener_obras_orm_filas, bind_lift_Ok, bind_print.
    rewrite (bind_Raise _ _ _ _ _ _ _ _
               (eliminar_todas_las_filas_error_http coda doc_id table_id n2 Herr)).
    reflexivity.
  - rewrite !sin_mutaciones_app.
    pose proof (solo_obtener_documento_id_por_nombre coda nombre_documento n) as H1.
    pose proof (solo_obtener_table_id coda doc_id nombre_tabla n1) as H2.
    rewrite Hdoc in H1. rewrite Htab in H2. simpl in H1, H2.
    unfold sin_mutaciones at 1 2. rewrite H1, H2. reflexivity.
Qed.

Lemma main_listado_de_filas_con_error_ejemplo :
  exists ev,
    main coda_sin_filas parse_datetime_iso db_ejemplo "Obras" "Avance" 0
    = (Raise (HTTPError (status_code (coda_sin_filas 2 (peticion_rows "d1" "t1")))), 3, ev) /\
    sin_mutaciones ev = true.
Proof.
  apply (main_listado_de_filas_con_error coda_sin_filas parse_datetime_iso db_ejemplo
           "Obras" "Avance" 0 "d1" 1
           [ EvPrint MsgBuscandoDocumento; EvPeticion peticion_docs;
             EvPrint (MsgDocumentoEncontrado "Obras" "d1") ]
           "t1" 2
           [ EvPrint MsgBuscandoTabla; EvPeticion (peticion_tables "d1");
             EvPrint (MsgTablaEncontrada "Avance" "t1") ]);
    reflexivity.
Defined.

(* ------------------------------------------------------------------ *)
(** ** What the locator returns *)

Lemma buscar_documento_Ok (nombre : string) (docs : list item) (n n' : nat)
    (id : string) (ev : list evento) :
  buscar_documento nombre docs n = (Ok id, n', ev) ->
  exists it, In it docs /\ item_name it = nombre /\ item_id it = id.
Proof.
  induction docs as [|d docs IH]; simpl; intros H.
  - discriminate.
  - destruct (String.eqb_spec (item_name d) nombre) as [He | _].
    + injection H as <- _ _. exists d. auto.
    + destruct (IH H) as [it [Hin Hit]]. exists it. auto.
Qed.

Lemma buscar_tabla_Ok (nombre : string) (tablas : list item) (n n' : nat)
    (id : string) (ev : list evento) :
  buscar_tabla nombre tablas n = (Ok id, n', ev) ->
  exists it, In it tablas /\ item_name it = nombre /\ item_id it = id.
Proof.
  induction tablas as [|d tablas IH]; simpl; intros H.
  - discriminate.
  - destruct (String.eqb_spec (item_name d) nombre) as [He | _].
    + injection H as <- _ _. exists d. auto.
    + destruct (IH H) as [it [Hin Hit]]. exists it. auto.
Qed.

(** What a listing must have been for the code after it to run: no error
    status and a JSON object. *)
Lemma listar_Ok (coda : nat -> peticion -> respuesta) A (url : string) (n n' : nat)
    (k : list item -> M A) (a : A) (ev : list evento) :
  (r <- requests coda GET url SinJson ;;
   raise_for_status r ;;
   xs <- json_items r ;;
   k xs) n = (Ok a, n', ev) ->
  exists items ev',
    lista (coda n {| p_metodo := GET; p_url := url; p_json := SinJson |}) items /\
    k items (S n) = (Ok a, n', ev').
Proof.
  unfold bind, requests, raise_for_status, json_items, lista.
  destruct (_ && _); simpl; [discriminate|].
  destruct (cuerpo _) as [|[items|]] eqn:Hc; simpl; [discriminate | |].
  - destruct (k items (S n)) as [[r n''] ev'] eqn:Hk. intros H.
    injection H as -> -> _. exists items, ev'. auto.
  - destruct (k [] (S n)) as [[r n''] ev'] eqn:Hk. intros H.
    injection H as -> -> _. exists [], ev'. auto.
Qed.

(** X6. An identifier the locator returns is the identifier of an item of
    the listing whose name is exactly the name sought; the listing was
    answered without error status, and the locator made that one request. *)
Theorem localizador_devuelve_un_item_del_listado
    (coda : nat -> peticion -> respuesta)
    (nombre_documento nombre_tabla doc_id : string) (n m : nat)
    (id1 : string) (n1 : nat) (ev1 : list evento)
    (id2 : string) (m2 : nat) (ev2 : list evento) :
  obtener_documento_id_por_nombre coda nombre_documento n = (Ok id1, n1, ev1) ->
  obtener_table_id coda doc_id nombre_tabla m = (Ok id2, m2, ev2) ->
  (exists docs it,
      lista (coda n peticion_docs) docs /\
      In it docs /\ item_name it = nombre_documento /\ item_id it = id1 /\ n1 = S n) /\
  (exists tablas it,
      lista (coda m (peticion_tables doc_id)) tablas /\
      In it tablas /\ item_name it = nombre_tabla /\ item_id it = id2 /\ m2 = S m).
Proof.
  intros Hd Ht. split.
  - revert Hd. unfold obtener_documento_id_por_nombre. rewrite bind_print.
    destruct (bind (requests coda GET url_docs SinJson) _ n) as [[r n'] ev] eqn:Hc.
    intros Hd. injection Hd as -> -> _.
    apply listar_Ok in Hc. destruct Hc as [docs [ev' [Hl Hk]]].
    pose proof (buscar_documento_eventos nombre_documento docs (S n)) as [Hn _].
    rewrite Hk in Hn. simpl in Hn.
    destruct (buscar_documento_Ok _ _ _ _ _ _ Hk) as [it [Hin [Hname Hid]]].
    exists docs, it. auto.
  - revert Ht. unfold obtener_table_id. rewrite bind_print.
    destruct (bind (requests coda GET (url_tables doc_id) SinJson) _ m)
      as [[r n'] ev] eqn:Hc.
    intros Ht. injection Ht as -> -> _.
    apply listar_Ok in Hc. destruct Hc as [tablas [ev' [Hl Hk]]].
    assert (Hn : m2 = S m).
    { clear - Hk. revert Hk. induction tablas as [|d tablas IH]; simpl; [discriminate|].
      destruct (String.eqb (item_name d) nombre_tabla); [|exact IH].
      intros H. injection H as _ <- _. reflexivity. }
    destruct (buscar_tabla_Ok _ _ _ _ _ _ Hk) as [it [Hin [Hname Hid]]].
    exists tablas, it. auto.
Qed.

Lemma localizador_devuelve_un_item_del_listado_ejemplo :
  (exists docs it,
      lista (coda_homonimos 0 peticion_docs) docs /\
      In it docs /\ item_name it = "Obras" /\ item_id it = "d1" /\ 1 = 1) /\
  (exists tablas it,
      lista (coda_homonimos 1 (peticion_tables "d1")) tablas /\
      In it tablas /\ item_name it = "Avance" /\ item_id it = "t1" /\ 2 = 2).
Proof.
  apply (localizador_devuelve_un_item_del_listado coda_homonimos "Obras" "Avance" "d1" 0 1
           "d1" 1
           [ EvPrint MsgBuscandoDocumento; EvPeticion peticion_docs;
             EvPrint (MsgDocumentoEncontrado "Obras" "d1") ]
           "t1" 2
           [ EvPrint MsgBuscandoTabla; EvPeticion (peticion_tables "d1");
             EvPrint (MsgTablaEncontrada "Avance" "t1") ]);
    reflexivity.
Defined.

(* ------------------------------------------------------------------ *)
(** ** The purger, batch by batch *)

Lemma lotes_subidos_app (a b : list evento) :
  lotes_subidos (a ++ b) = lotes_subidos a ++ lotes_subidos b.
Proof.
  induction a as [|e a IH]; [reflexivity|].
  destruct e as [[m u j]| |]; simpl; try exact IH.
  destruct m; try exact IH. destruct j; try exact IH. rewrite IH. reflexivity.
Qed.

Lemma lotes_eliminados_app (a b : list evento) :
  lotes_eliminados (a ++ b) = lotes_eliminados a ++ lotes_eliminados b.
Proof.
  induction a as [|e a IH]; [reflexivity|].
  destruct e as [[m u j]| |]; simpl; try exact IH.
  destruct m; try exact IH. destruct j; try exact IH. rewrite IH. reflexivity.
Qed.

Lemma espera_total_app (a b : list evento) :
  espera_total (a ++ b) = espera_total a + espera_total b.
Proof.
  induction a as [|e a IH]; [reflexivity|].
  destruct e; simpl; rewrite IH; lia.
Qed.

Lemma suma_slices A (l : list A) (step : nat) :
  0 < step ->
  list_sum (map (fun i => List.length (slice l i (i + step))) (range 0 (List.length l) step))
  = List.length l.
Proof.
  intros Hs.
  rewrite <- (map_map (fun i => slice l i (i + step)) (@List.length A)).
  rewrite <- length_concat, concat_slices by exact Hs. reflexivity.
Qed.

Section PurgadorLotes.

Variable coda : nat -> peticion -> respuesta.
Variables doc_id table_id : string.

Lemma eliminar_lote_traza (ids : list string) (i n : nat) :
  eliminar_lote coda doc_id table_id ids i n
  = (Ok tt, S n,
     [ EvPeticion {| p_metodo := DELETE; p_url := url_rows doc_id table_id;
                     p_json := JsonRowIds (slice ids i (i + 50)) |};
       EvPrint
         (if (status_code
                (coda n {| p_metodo := DELETE; p_url := url_rows doc_id table_id;
                           p_json := JsonRowIds (slice ids i (i + 50)) |}) =? 202)%Z
          then MsgFilasEliminadas (List.length (slice ids i (i + 50)))
          else MsgErrorEliminar
                 (status_code
                    (coda n {| p_metodo := DELETE; p_url := url_rows doc_id table_id;
                               p_json := JsonRowIds (slice ids i (i + 50)) |})) ) ]).
Proof.
  unfold eliminar_lote, bind, requests.
  destruct (status_code _ =? 202)%Z; reflexivity.
Qed.

Lemma por_cada_eliminar_lote_reportadas (ids : list string) (idxs : list nat) (n : nat) :
  exists ev,
    por_cada idxs (eliminar_lote coda doc_id table_id ids) n
    = (Ok tt, n + List.length idxs, ev) /\
    lotes_eliminados ev = map (fun i => slice ids i (i + 50)) idxs /\
    lotes_subidos ev = [] /\
    filas_eliminadas ev
    <= list_sum (map (fun i => List.length (slice ids i (i + 50))) idxs) /\
    ((forall k p, p_metodo p = DELETE -> status_code (coda k p) = 202%Z) ->
     filas_eliminadas ev
     = list_sum (map (fun i => List.length (slice ids i (i + 50))) idxs)) /\
    ((forall k p, p_metodo p = DELETE -> status_code (coda k p) <> 202%Z) ->
     filas_eliminadas ev = 0).
Proof.
  revert n. induction idxs as [|i idxs IH]; intros n.
  - exists []. simpl. rewrite Nat.add_0_r. repeat split; lia.
  - destruct (IH (S n)) as [ev [Hrun [Hlotes [Hsub [Hle [Hall Hnone]]]]]].
    eexists. split; [|split; [|split; [|split; [|split]]]].
    + cbn [por_cada]. rewrite (bind_Ok _ _ _ _ _ _ _ _ (eliminar_lote_traza ids i n)), Hrun.
      simpl. do 2 f_equal. lia.
    + simpl. rewrite Hlotes. reflexivity.
    + simpl. exact Hsub.
    + simpl. destruct (status_code _ =? 202)%Z; simpl; lia.
    + intros H. simpl.
      rewrite (H n {| p_metodo := DELETE; p_url := url_rows doc_id table_id;
                      p_json := JsonRowIds (slice ids i (i + 50)) |} eq_refl).
      simpl. rewrite (Hall H). reflexivity.
    + intros H. simpl.
      destruct (Z.eqb_spec
                  (status_code
                     (coda n {| p_metodo := DELETE; p_url := url_rows doc_id table_id;
                                p_json := JsonRowIds (slice ids i (i + 50)) |})) 202)
        as [He | _].
      * exfalso.
        apply (H n {| p_metodo := DELETE; p_url := url_rows doc_id table_id;
                      p_json := JsonRowIds (slice ids i (i + 50)) |} eq_refl He).
      * simpl. apply Hnone. exact H.
Qed.

(** The purger once its listing is answered. *)
Lemma eliminar_todas_las_filas_traza (n : nat) (items : list item) :
  lista (coda n (peticion_rows doc_id table_id)) items ->
  exists ev,
    eliminar_todas_las_filas coda doc_id table_id n
    = (Ok tt, S n + ceil_div (List.length items) 50,
       EvPrint MsgEliminando :: EvPeticion (peticion_rows doc_id table_id) :: ev) /\
    List.concat (lotes_eliminados ev) = map item_id items /\
    lotes_subidos ev = [] /\
    filas_eliminadas ev <= List.length items /\
    ((forall k p, p_metodo p = DELETE -> status_code (coda k p) = 202%Z) ->
     filas_eliminadas ev = List.length items) /\
    ((forall k p, p_metodo p = DELETE -> status_code (coda k p) <> 202%Z) ->
     filas_eliminadas ev = 0).
Proof.
  intros Hl.
  destruct (por_cada_eliminar_lote_reportadas (map item_id items)
              (range 0 (List.length (map item_id items)) 50) (S n))
    as [ev [Hrun [Hlotes [Hsub [Hle [Hall Hnone]]]]]].
  rewrite suma_slices in Hle, Hall by lia.
  rewrite range_length in Hrun by lia.
  rewrite length_map in Hrun, Hle, Hall.
  exists ev. split; [|split; [|split; [|split; [|split]]]]; try assumption.
  - unfold eliminar_todas_las_filas. rewrite bind_print.
    rewrite (listar_items coda _ (url_rows doc_id table_id) n items
               (fun rows => por_cada (range 0 (List.length (map item_id rows)) 50)
                              (eliminar_lote coda doc_id table_id (map item_id rows))) Hl).
    cbv beta. rewrite length_map, Hrun. reflexivity.
  - rewrite Hlotes. apply concat_slices. lia.
Qed.

End PurgadorLotes.

(** X10. The purge is best effort and never repeated.  Once the listing is
    answered with N rows the purger returns normally after exactly
    1 + ceil(N/50) requests, whatever is answered to the DELETE requests (a
    429 included); it never sleeps and never uploads.  Its messages report
    as deleted at most N rows: all N when every DELETE is answered 202, none
    when no DELETE is. *)
Theorem eliminar_todas_las_filas_mejor_esfuerzo
    (coda : nat -> peticion -> respuesta) (doc_id table_id : string) (n : nat)
    (items : list item) :
  lista (coda n (peticion_rows doc_id table_id)) items ->
  exists ev,
    eliminar_todas_las_filas coda doc_id table_id n
    = (Ok tt, n + 1 + ceil_div (List.length items) 50, ev) /\
    espera_total ev = 0 /\
    sin_peticion POST ev = true /\
    filas_eliminadas ev <= List.length items /\
    ((forall k p, p_metodo p = DELETE -> status_code (coda k p) = 202%Z) ->
     filas_eliminadas ev = List.length items) /\
    ((forall k p, p_metodo p = DELETE -> status_code (coda k p) <> 202%Z) ->
     filas_eliminadas ev = 0).
Proof.
  intros Hl.
  destruct (eliminar_todas_las_filas_traza coda doc_id table_id n items Hl)
    as [ev [Hrun [_ [_ [Hle [Hall Hnone]]]]]].
  pose proof (solo_eliminar_todas_las_filas coda doc_id table_id n) as Hsolo.
  rewrite Hrun in Hsolo. simpl snd in Hsolo.
  eexists. split; [|split; [|split; [|split; [|split]]]].
  - rewrite Hrun. do 2 f_equal. lia.
  - clear - Hsolo.
    induction (EvPrint MsgEliminando :: EvPeticion (peticion_rows doc_id table_id) :: ev)
      as [|e l IH]; [reflexivity|].
    simpl in Hsolo. apply andb_true_iff in Hsolo. destruct Hsolo as [He Hl].
    destruct e; simpl; try (apply IH; exact Hl). discriminate.
  - clear - Hsolo. unfold sin_peticion.
    rewrite forallb_forall in *. intros e He. specialize (Hsolo e He).
    destruct e; [exact Hsolo | discriminate | reflexivity].
  - exact Hle.
  - exact Hall.
  - exact Hnone.
Qed.

Lemma eliminar_todas_las_filas_mejor_esfuerzo_ejemplo :
  exists ev,
    eliminar_todas_las_filas (coda_solo_lista (items_ejemplo 120)) "d" "t" 0
    = (Ok tt, 0 + 1 + ceil_div (List.length (items_ejemplo 120)) 50, ev) /\
    espera_total ev = 0 /\
    sin_peticion POST ev = true /\
    filas_eliminadas ev <= List.length (items_ejemplo 120) /\
    ((forall k p, p_metodo p = DELETE ->
        status_code (coda_solo_lista (items_ejemplo 120) k p) = 202%Z) ->
     filas_eliminadas ev = List.length (items_ejemplo 120)) /\
    ((forall k p, p_metodo p = DELETE ->
        status_code (coda_solo_lista (items_ejemplo 120) k p) <> 202%Z) ->
     filas_eliminadas ev = 0).
Proof.
  apply (eliminar_todas_las_filas_mejor_esfuerzo (coda_solo_lista (items_ejemplo 120))
           "d" "t" 0 (items_ejemplo 120)).
  split; [reflexivity | left; reflexivity].
Defined.

(* ------------------------------------------------------------------ *)
(** ** The batch inserter, whatever the service answers *)

Lemma list_sum_acotada (ks : list nat) (c : nat) :
  Forall (fun k => 1 <= k <= c) ks ->
  List.length ks <= list_sum ks <= c * List.length ks.
Proof.
  induction 1 as [|k ks Hk _ IH]; simpl; lia.
Qed.

Lemma sin_peticion_lotes_eliminados (ev : list evento) :
  sin_peticion DELETE ev = true -> lotes_eliminados ev = [].
Proof.
  unfold sin_peticion. induction ev as [|e ev IH]; simpl; intros H; [reflexivity|].
  apply andb_true_iff in H. destruct H as [He Hev].
  destruct e as [[m u j]| |]; simpl in *; try (apply IH; exact Hev).
  destruct m; try (apply IH; exact Hev). discriminate.
Qed.

Lemma dict_get_nombre (s : SyncRow) :
  dict_get (dropna (iterrows_fila s)) "Nombre de la obra" (VStr "Sin nombre")
  = VStr (nombre_o_defecto s).
Proof.
  rewrite (dict_get_dropna (iterrows_fila s) "Nombre de la obra" (de_texto (s_nombre s))).
  - unfold nombre_o_defecto. destruct (s_nombre s); reflexivity.
  - apply iterrows_fila_claves_NoDup.
  - left. reflexivity.
Qed.

Lemma join_coma_nombres (rows : DataFrame) :
  join_coma (map (fun f => dict_get f "Nombre de la obra" (VStr "Sin nombre"))
               (filas_dicts rows))
  = Ok (String.concat ", " (map nombre_o_defecto rows)).
Proof.
  assert (H : map (fun f => dict_get f "Nombre de la obra" (VStr "Sin nombre"))
                 (filas_dicts rows)
              = map (fun s => VStr (nombre_o_defecto s)) rows).
  { unfold filas_dicts. rewrite map_map. apply map_ext. intros s. apply dict_get_nombre. }
  rewrite H. unfold join_coma.
  rewrite mapR_Ok with (g := fun v => match v with VStr t => t | _ => EmptyString end).
  - simpl. rewrite map_map. reflexivity.
  - intros v Hin. apply in_map_iff in Hin. destruct Hin as [s [<- _]]. reflexivity.
Qed.

Section InsertadorAcotado.

Variable coda : nat -> peticion -> respuesta.
Variables doc_id table_id : string.

(** The retry loop on a batch of clean dicts: it makes between one attempt
    and all of them, each an upload of the same payload, and sleeps no more
    than the sum of the waits of its attempts. *)
Lemma bucle_reintentos_acotado (batch : list fila) (payload : list fila_wire)
    (intentos : list nat) (n : nat) :
  Forall fila_limpia batch ->
  exists k ev,
    bucle_reintentos coda doc_id table_id batch payload intentos n = (Ok tt, n + k, ev) /\
    k <= List.length intentos /\
    (intentos <> [] -> 1 <= k) /\
    lotes_subidos ev = repeat payload k /\
    List.length (filter (es_peticion POST) ev) = k /\
    espera_total ev <= list_sum (map (Nat.pow 2) intentos).
Proof.
  intros Hb. destruct (nombres_limpios batch Hb) as [unidos Hj].
  revert n. induction intentos as [|intento resto IH]; intros n.
  - exists 0, []. simpl. rewrite Nat.add_0_r. repeat split; try lia. congruence.
  - destruct (Z.eq_dec (status_code (coda n (peticion_post doc_id table_id payload))) 202)
      as [H202 | H202].
    + rewrite (bucle_reintentos_202 _ _ _ _ _ _ _ _ _ H202 Hj).
      exists 1, [ EvPeticion (peticion_post doc_id table_id payload);
                  EvPrint (MsgFilasInsertadas (List.length batch) unidos) ].
      simpl. repeat split; try lia. f_equal. f_equal. lia.
    + destruct (Z.eq_dec (status_code (coda n (peticion_post doc_id table_id payload))) 429)
        as [H429 | H429].
      * rewrite (bucle_reintentos_429 _ _ _ _ _ _ _ _ H429).
        destruct (IH (S n)) as [k [ev [Hrun [Hle [_ [Hlotes [Hposts Hesp]]]]]]].
        rewrite Hrun.
        exists (S k), (EvPeticion (peticion_post doc_id table_id payload)
                         :: EvPrint (MsgLimiteAlcanzado (2 ^ intento))
                         :: EvSleep (2 ^ intento) :: ev).
        simpl. rewrite Hlotes, Hposts. repeat split; try lia.
        do 2 f_equal. lia.
      * rewrite (bucle_reintentos_otro _ _ _ _ _ _ _ _ H202 H429).
        exists 1, [ EvPeticion (peticion_post doc_id table_id payload);
                    EvPrint (MsgErrorInsertar
                               (status_code
                                  (coda n (peticion_post doc_id table_id payload)))) ].
        simpl. repeat split; try lia. f_equal. f_equal. lia.
Qed.

Variable df : DataFrame.
Variable batch_size : nat.

Lemma por_cada_insertar_lote_acotado (idxs : list nat) (n : nat) :
  exists ks ev,
    por_cada idxs (insertar_lote coda doc_id table_id (filas_dicts df) batch_size 5) n
    = (Ok tt, n + list_sum ks, ev) /\
    List.length ks = List.length idxs /\
    Forall (fun k => 1 <= k <= 5) ks /\
    lotes_subidos ev
    = List.concat
        (map (fun ik => repeat (slice (map wire_de (filas_dicts df))
                                  (fst ik) (fst ik + batch_size)) (snd ik))
             (combine idxs ks)) /\
    List.length (filter (es_peticion POST) ev) = list_sum ks /\
    espera_total ev <= 31 * List.length idxs.
Proof.
  revert n. induction idxs as [|i idxs IH]; intros n.
  - exists [], []. simpl. rewrite Nat.add_0_r. repeat split; try lia. constructor.
  - destruct (bucle_reintentos_acotado
                (slice (filas_dicts df) i (i + batch_size))
                (map wire_de (slice (filas_dicts df) i (i + batch_size)))
                [0; 1; 2; 3; 4] n)
      as [k [ev1 [Hlote [Hle [Hge [Hlotes1 [Hposts1 Hesp1]]]]]]].
    { rewrite slice_filas_dicts. apply filas_dicts_limpias. }
    rewrite <- insertar_lote_filas_dicts in Hlote.
    destruct (IH (n + k)) as [ks [ev [Hrun [Hlen [Hks [Hlotes [Hposts Hesp]]]]]]].
    exists (k :: ks), (ev1 ++ ev).
    split; [|split; [|split; [|split; [|split]]]].
    + cbn [por_cada]. rewrite (bind_Ok _ _ _ _ _ _ _ _ Hlote), Hrun.
      simpl. do 2 f_equal. lia.
    + simpl. rewrite Hlen. reflexivity.
    + constructor; [|exact Hks]. simpl in Hle. split; [apply Hge; discriminate | lia].
    + rewrite lotes_subidos_app, Hlotes1, Hlotes. simpl. rewrite slice_map. reflexivity.
    + rewrite filter_app, length_app, Hposts1, Hposts. reflexivity.
    + rewrite espera_total_app. simpl in Hesp1. simpl. lia.
Qed.

Lemma insertar_lote_429s_otro (i n k : nat) :
  k < 5 ->
  (forall j, j < k ->
     status_code (coda (n + j) (peticion_lote doc_id table_id (filas_dicts df) batch_size i))
     = 429%Z) ->
  status_code (coda (n + k) (peticion_lote doc_id table_id (filas_dicts df) batch_size i))
  <> 202%Z ->
  status_code (coda (n + k) (peticion_lote doc_id table_id (filas_dicts df) batch_size i))
  <> 429%Z ->
  insertar_lote coda doc_id table_id (filas_dicts df) batch_size 5 i n
  = (Ok tt, S (n + k),
     intentos_limitados (peticion_lote doc_id table_id (filas_dicts df) batch_size i) 0 k
     ++ [ EvPeticion (peticion_lote doc_id table_id (filas_dicts df) batch_size i);
          EvPrint (MsgErrorInsertar
                     (status_code
                        (coda (n + k)
                           (peticion_lote doc_id table_id (filas_dicts df) batch_size i)))) ]).
Proof.
  intros Hk H429 Hno202 Hno429.
  rewrite insertar_lote_filas_dicts.
  replace [0; 1; 2; 3; 4] with (seq 0 k ++ seq k (5 - k))
    by (rewrite <- seq_app; replace (k + (5 - k)) with 5 by lia; reflexivity).
  rewrite bucle_reintentos_429s by exact H429.
  destruct (5 - k) as [|m] eqn:E; [lia|]. cbn [seq].
  rewrite (bucle_reintentos_otro _ _ _ _ _ _ _ _ Hno202 Hno429).
  reflexivity.
Qed.

Lemma insertar_lote_sin_intentos (i n : nat) :
  insertar_lote coda doc_id table_id (filas_dicts df) batch_size 0 i n = (Ok tt, n, []).
Proof.
  unfold insertar_lote, bind, lift.
  rewrite payload_limpio by (rewrite slice_filas_dicts; apply filas_dicts_limpias).
  reflexivity.
Qed.

Lemma por_cada_insertar_lote_sin_intentos (idxs : list nat) (n : nat) :
  por_cada idxs (insertar_lote coda doc_id table_id (filas_dicts df) batch_size 0) n
  = (Ok tt, n, []).
Proof.
  induction idxs as [|i idxs IH]; [reflexivity|].
  cbn [por_cada]. rewrite (bind_Ok _ _ _ _ _ _ _ _ (insertar_lote_sin_intentos i n)), IH.
  reflexivity.
Qed.

End InsertadorAcotado.

Lemma intentos_limitados_cuentas (p : peticion) (a k : nat) (cola : list evento) :
  p_metodo p = POST ->
  List.length (filter (es_peticion POST) (intentos_limitados p a k ++ cola))
  = k + List.length (filter (es_peticion POST) cola) /\
  esperas (intentos_limitados p a k ++ cola) = map (Nat.pow 2) (seq a k) ++ esperas cola.
Proof.
  intros Hp. revert a. induction k as [|k IH]; intros a; [split; reflexivity|].
  destruct (IH (S a)) as [H1 H2]. cbn [intentos_limitados app filter esperas seq map].
  unfold es_peticion at 1. rewrite Hp. cbn [es_peticion]. rewrite H2.
  split; [simpl; rewrite H1; reflexivity | reflexivity].
Qed.

(** X11. A batch whose upload is answered 429 on its first [k] attempts
    ([k] below 5) and then with a status that is neither 202 nor 429 is given
    up at once: after the [k] waits the upload is sent one more time, the
    error message with that status is printed, and there is no further
    attempt and no further wait. *)
Theorem insertar_lote_rechazado
    (coda : nat -> peticion -> respuesta) (doc_id table_id : string)
    (df : DataFrame) (i n k : nat) :
  k < 5 ->
  (forall j, j < k ->
     status_code (coda (n + j) (peticion_lote doc_id table_id (filas_dicts df) 10 i))
     = 429%Z) ->
  status_code (coda (n + k) (peticion_lote doc_id table_id (filas_dicts df) 10 i))
  <> 202%Z ->
  status_code (coda (n + k) (peticion_lote doc_id table_id (filas_dicts df) 10 i))
  <> 429%Z ->
  exists ev,
    insertar_lote coda doc_id table_id (filas_dicts df) 10 5 i n = (Ok tt, S (n + k), ev) /\
    ev = intentos_limitados (peticion_lote doc_id table_id (filas_dicts df) 10 i) 0 k
         ++ [ EvPeticion (peticion_lote doc_id table_id (filas_dicts df) 10 i);
              EvPrint (MsgErrorInsertar
                         (status_code
                            (coda (n + k)
                               (peticion_lote doc_id table_id (filas_dicts df) 10 i)))) ] /\
    List.length (filter (es_peticion POST) ev) = S k /\
    esperas ev = map (Nat.pow 2) (seq 0 k).
Proof.
  intros Hk H429 Hno202 Hno429. eexists. split; [|split; [reflexivity|]].
  - apply insertar_lote_429s_otro; assumption.
  - match goal with
    | |- context [intentos_limitados ?p 0 k ++ ?c] =>
        destruct (intentos_limitados_cuentas p 0 k c eq_refl) as [H1 H2]
    end.
    rewrite H1, H2. simpl. rewrite app_nil_r. split; [lia | reflexivity].
Qed.

Lemma insertar_lote_rechazado_ejemplo :
  exists ev,
    insertar_lote (coda_rechaza 2) "d" "t" (filas_dicts (df_ejemplo 12)) 10 5 10 0
    = (Ok tt, S (0 + 2), ev) /\
    ev = intentos_limitados (peticion_lote "d" "t" (filas_dicts (df_ejemplo 12)) 10 10) 0 2
         ++ [ EvPeticion (peticion_lote "d" "t" (filas_dicts (df_ejemplo 12)) 10 10);
              EvPrint (MsgErrorInsertar
                         (status_code
                            (coda_rechaza 2 (0 + 2)
                               (peticion_lote "d" "t" (filas_dicts (df_ejemplo 12)) 10 10)))) ] /\
    List.length (filter (es_peticion POST) ev) = S 2 /\
    esperas ev = map (Nat.pow 2) (seq 0 2).
Proof.
  apply (insertar_lote_rechazado (coda_rechaza 2) "d" "t" (df_ejemplo 12) 10 0 2).
  - lia.
  - intros j Hj. do 2 (destruct j as [|j]; [reflexivity|]). lia.
  - simpl. discriminate.
  - simpl. discriminate.
Defined.

(** X12. Whatever the service answers, the inserter on the dicts of a frame
    of N rows returns normally; it sends no GET and no DELETE; it uploads
    between ceil(N/10) and 5 ceil(N/10) times, which are all its requests;
    and it sleeps at most 31 seconds for each of the ceil(N/10) batches. *)
Theorem insertar_filas_en_bloques_acotado
    (coda : nat -> peticion -> respuesta) (doc_id table_id : string)
    (df : DataFrame) (n : nat) :
  exists n' ev,
    insertar_filas_en_bloques coda doc_id table_id (filas_dicts df) 10 5 n
    = (Ok tt, n', ev) /\
    ceil_div (List.length df) 10 <= List.length (filter (es_peticion POST) ev) /\
    List.length (filter (es_peticion POST) ev) <= 5 * ceil_div (List.length df) 10 /\
    n' = n + List.length (filter (es_peticion POST) ev) /\
    espera_total ev <= 31 * ceil_div (List.length df) 10 /\
    sin_peticion GET ev = true /\
    sin_peticion DELETE ev = true.
Proof.
  destruct (por_cada_insertar_lote_acotado coda doc_id table_id df 10
              (range 0 (List.length (filas_dicts df)) 10) n)
    as [ks [ev [Hrun [Hlen [Hks [_ [Hposts Hesp]]]]]]].
  assert (Hfilas : List.length (filas_dicts df) = List.length df)
    by (unfold filas_dicts; apply length_map).
  rewrite range_length, Hfilas in Hlen, Hesp by lia.
  pose proof (list_sum_acotada ks 5 Hks) as [Hmin Hmax].
  assert (Heq : insertar_filas_en_bloques coda doc_id table_id (filas_dicts df) 10 5 n
                = (Ok tt, n + list_sum ks, ev)).
  { unfold insertar_filas_en_bloques. change (10 =? 0) with false. cbv iota. exact Hrun. }
  pose proof (solo_insertar_filas_en_bloques coda doc_id table_id (filas_dicts df) 10 5 n)
    as Hsolo.
  rewrite Heq in Hsolo. simpl snd in Hsolo.
  exists (n + list_sum ks), ev.
  split; [exact Heq|]. rewrite Hposts.
  split; [lia|]. split; [lia|]. split; [reflexivity|]. split; [exact Hesp|].
  unfold sin_peticion. rewrite !forallb_forall in *.
  split; intros e He; specialize (Hsolo e He);
    apply andb_true_iff in Hsolo; tauto.
Qed.

(** X13. Whatever the service answers, the uploads of the inserter are the
    batches of the sequence in order, each sent between one and five times
    in a row: a retry sends the same batch again, no batch is skipped, and
    no batch is sent after a later one. *)
Theorem insertar_filas_en_bloques_mismo_lote
    (coda : nat -> peticion -> respuesta) (doc_id table_id : string)
    (df : DataFrame) (n : nat) :
  exists (ks : list nat) n' ev,
    insertar_filas_en_bloques coda doc_id table_id (filas_dicts df) 10 5 n
    = (Ok tt, n', ev) /\
    List.length ks = ceil_div (List.length df) 10 /\
    Forall (fun k => 1 <= k <= 5) ks /\
    lotes_subidos ev
    = List.concat
        (map (fun ik => repeat (slice (map wire_de (filas_dicts df))
                                  (fst ik) (fst ik + 10)) (snd ik))
             (combine (range 0 (List.length df) 10) ks)).
Proof.
  destruct (por_cada_insertar_lote_acotado coda doc_id table_id df 10
              (range 0 (List.length (filas_dicts df)) 10) n)
    as [ks [ev [Hrun [Hlen [Hks [Hlotes _]]]]]].
  assert (Hfilas : List.length (filas_dicts df) = List.length df)
    by (unfold filas_dicts; apply length_map).
  rewrite Hfilas in Hlen, Hlotes. rewrite range_length in Hlen by lia.
  exists ks, (n + list_sum ks), ev.
  split; [|split; [exact Hlen | split; [exact Hks | exact Hlotes]]].
  unfold insertar_filas_en_bloques. change (10 =? 0) with false. cbv iota. exact Hrun.
Qed.

(** X14. A batch whose upload is answered 202 at the first attempt is sent
    once, and the message that follows gives the number of its rows and
    their names in order, separated by a comma and a space, with
    "Sin nombre" for a row that has no name. *)
Theorem insertar_lote_aceptado_mensaje
    (coda : nat -> peticion -> respuesta) (doc_id table_id : string)
    (df : DataFrame) (i n : nat) :
  status_code (coda n (peticion_lote doc_id table_id (filas_dicts df) 10 i)) = 202%Z ->
  insertar_lote coda doc_id table_id (filas_dicts df) 10 5 i n
  = (Ok tt, S n,
     [ EvPeticion (peticion_lote doc_id table_id (filas_dicts df) 10 i);
       EvPrint (MsgFilasInsertadas
                  (List.length (slice df i (i + 10)))
                  (String.concat ", " (map nombre_o_defecto (slice df i (i + 10))))) ]).
Proof.
  intros H202. rewrite insertar_lote_filas_dicts.
  rewrite (bucle_reintentos_202 coda doc_id table_id _ _ 0 [1; 2; 3; 4] n
             (String.concat ", " (map nombre_o_defecto (slice df i (i + 10))))).
  - replace (List.length (slice (filas_dicts df) i (i + 10)))
      with (List.length (slice df i (i + 10)))
      by (rewrite slice_filas_dicts; unfold filas_dicts; symmetry; apply length_map).
    reflexivity.
  - exact H202.
  - rewrite slice_filas_dicts. apply join_coma_nombres.
Qed.

Lemma insertar_lote_aceptado_mensaje_ejemplo :
  insertar_lote (coda_fijo 202 []) "d" "t" (filas_dicts df_con_vacia) 10 5 0 0
  = (Ok tt, 1,
     [ EvPeticion (peticion_lote "d" "t" (filas_dicts df_con_vacia) 10 0);
       EvPrint (MsgFilasInsertadas 3 "Puente, Sin nombre, Canal") ]).
Proof.
  apply (insertar_lote_aceptado_mensaje (coda_fijo 202 []) "d" "t" df_con_vacia 0 0).
  reflexivity.
Defined.

(** X15. With [max_reintentos=0] and a batch size that is not zero, the
    inserter returns normally without a single request: nothing is uploaded
    and nothing says so. *)
Theorem insertar_filas_en_bloques_sin_intentos
    (coda : nat -> peticion -> respuesta) (doc_id table_id : string)
    (df : DataFrame) (batch_size n : nat) :
  0 < batch_size ->
  insertar_filas_en_bloques coda doc_id table_id (filas_dicts df) batch_size 0 n
  = (Ok tt, n, []).
Proof.
  intros Hb. unfold insertar_filas_en_bloques.
  destruct (Nat.eqb_spec batch_size 0) as [He | _]; [lia|].
  apply por_cada_insertar_lote_sin_intentos.
Qed.

Lemma insertar_filas_en_bloques_sin_intentos_ejemplo :
  insertar_filas_en_bloques (coda_fijo 202 []) "d" "t" (filas_dicts (df_ejemplo 25)) 10 0 0
  = (Ok tt, 0, []).
Proof.
  apply (insertar_filas_en_bloques_sin_intentos (coda_fijo 202 []) "d" "t"
           (df_ejemplo 25) 10 0).
  lia.
Defined.

(* ------------------------------------------------------------------ *)
(** ** A whole run *)

(** A run in which both names are found, the listing of the rows is
    answered and no upload is answered 429: its events, part by part. *)
Lemma main_traza
    (coda : nat -> peticion -> respuesta)
    (parse_datetime : list celda_fecha -> celda_fecha -> option Timestamp)
    (db : BaseDatos) (nombre_documento nombre_tabla : string) (n : nat)
    (pre : list item) (x : item) (post : list item)
    (pre' : list item) (x' : item) (post' : list item)
    (items : list item) :
  lista (coda n peticion_docs) (pre ++ x :: post) ->
  sin_coincidencia nombre_documento pre = true ->
  item_name x = nombre_documento ->
  lista (coda (S n) (peticion_tables (item_id x))) (pre' ++ x' :: post') ->
  sin_coincidencia nombre_tabla pre' = true ->
  item_name x' = nombre_tabla ->
  lista (coda (S (S n)) (peticion_rows (item_id x) (item_id x'))) items ->
  (forall k p, p_metodo p = POST -> status_code (coda k p) <> 429%Z) ->
  exists (df : DataFrame) (evp evi : list evento),
    obtener_obras_orm parse_datetime db = Ok df /\
    List.length df = List.length (consulta db) /\
    main coda parse_datetime db nombre_documento nombre_tabla n
    = (Ok tt,
       n + 3 + ceil_div (List.length items) 50 + ceil_div (List.length df) 10,
       [ EvPrint MsgBuscandoDocumento; EvPeticion peticion_docs;
         EvPrint (MsgDocumentoEncontrado nombre_documento (item_id x));
         EvPrint MsgBuscandoTabla; EvPeticion (peticion_tables (item_id x));
         EvPrint (MsgTablaEncontrada nombre_tabla (item_id x'));
         EvPrint (MsgObrasASincronizar (List.length df));
         EvPrint MsgEliminando; EvPeticion (peticion_rows (item_id x) (item_id x')) ]
       ++ evp ++ evi) /\
    List.concat (lotes_eliminados evp) = map item_id items /\
    lotes_subidos evp = [] /\
    sin_peticion POST evp = true /\
    lotes_eliminados evi = [] /\
    List.concat (lotes_subidos evi) = map wire_de (filas_dicts df) /\
    List.length (filter (es_peticion POST) evi) = ceil_div (List.length df) 10.
Proof.
  intros Hl Hpre Hx Hl' Hpre' Hx' Hrows H429.
  pose proof (obtener_obras_orm_filas parse_datetime db) as Hdf.
  assert (Hlen : List.length
                   (map (fila_sync (parse_datetime (map q_inicio (consulta db)))
                                   (parse_datetime (map q_fin (consulta db))))
                        (consulta db))
                 = List.length (consulta db)) by apply length_map.
  set (df := map (fila_sync (parse_datetime (map q_inicio (consulta db)))
                            (parse_datetime (map q_fin (consulta db))))
                 (consulta db)) in *.
  clearbody df.
  assert (Hdoc : obtener_documento_id_por_nombre coda nombre_documento n
                 = (Ok (item_id x), S n,
                    [ EvPrint MsgBuscandoDocumento; EvPeticion peticion_docs;
                      EvPrint (MsgDocumentoEncontrado nombre_documento (item_id x)) ])).
  { rewrite (obtener_documento_id_por_nombre_lista coda _ _ _ Hl).
    rewrite (buscar_documento_primero _ _ _ _ _ Hpre Hx). reflexivity. }
  assert (Htab : obtener_table_id coda (item_id x) nombre_tabla (S n)
                 = (Ok (item_id x'), S (S n),
                    [ EvPrint MsgBuscandoTabla; EvPeticion (peticion_tables (item_id x));
                      EvPrint (MsgTablaEncontrada nombre_tabla (item_id x')) ])).
  { rewrite (obtener_table_id_lista coda _ _ _ _ Hl').
    rewrite (buscar_tabla_primero _ _ _ _ _ Hpre' Hx'). reflexivity. }
  destruct (eliminar_todas_las_filas_traza coda (item_id x) (item_id x') (S (S n)) items Hrows)
    as [evp [Hpurga [Hids [Hsubp _]]]].
  destruct (por_cada_insertar_lote_sin_429 coda (item_id x) (item_id x') df 10
              (range 0 (List.length (filas_dicts df)) 10)
              (S (S (S n)) + ceil_div (List.length items) 50) H429)
    as [evi [Hrun [Hlotes Hposts]]].
  assert (Hfilas : List.length (filas_dicts df) = List.length df)
    by (unfold filas_dicts; apply length_map).
  assert (Hins : insertar_filas_en_bloques coda (item_id x) (item_id x') (filas_dicts df) 10 5
                   (S (S (S n)) + ceil_div (List.length items) 50)
                 = (Ok tt,
                    S (S (S n)) + ceil_div (List.length items) 50
                    + List.length (range 0 (List.length (filas_dicts df)) 10), evi)).
  { unfold insertar_filas_en_bloques. change (10 =? 0) with false. cbv iota. exact Hrun. }
  assert (Hdel : lotes_eliminados evi = []).
  { apply sin_peticion_lotes_eliminados.
    pose proof (solo_insertar_filas_en_bloques coda (item_id x) (item_id x')
                  (filas_dicts df) 10 5
                  (S (S (S n)) + ceil_div (List.length items) 50)) as Hsolo.
    rewrite Hins in Hsolo. simpl snd in Hsolo.
    unfold sin_peticion. rewrite forallb_forall in *. intros e He.
    specialize (Hsolo e He). apply andb_true_iff in Hsolo. tauto. }
  assert (Hpost : sin_peticion POST evp = true).
  { pose proof (solo_eliminar_todas_las_filas coda (item_id x) (item_id x') (S (S n)))
      as Hsolo.
    rewrite Hpurga in Hsolo. simpl in Hsolo.
    unfold sin_peticion. rewrite forallb_forall in *. intros e He.
    specialize (Hsolo e He). destruct e; [exact Hsolo | discriminate | reflexivity]. }
  exists df, evp, evi. split; [exact Hdf|]. split; [exact Hlen|].
  split; [|split; [exact Hids | split; [exact Hsubp | split; [exact Hpost |
           split; [exact Hdel | split]]]]].
  - unfold main. rewrite (bind_Ok _ _ _ _ _ _ _ _ Hdoc).
    rewrite (bind_Ok _ _ _ _ _ _ _ _ Htab).
    rewrite Hdf, bind_lift_Ok, bind_print.
    rewrite (bind_Ok _ _ _ _ _ _ _ _ Hpurga), Hins.
    rewrite range_length, Hfilas by lia.
    cbv beta iota. simpl. f_equal. f_equal. lia.
  - rewrite Hlotes. rewrite <- (length_map wire_de (filas_dicts df)).
    apply concat_slices. lia.
  - rewrite Hposts, range_length, Hfilas by lia. reflexivity.
Qed.

(** X17. A run in which both names are found, the listing of the rows is
    answered, and no upload is answered 429, returns normally after
    3 + ceil(R/50) + ceil(N/10) requests, for R remote rows and N rows of the
    frame of the extractor.  It prints N, its DELETE requests carry, in
    order, the ids of the remote rows, and its POST requests carry, in
    order, the wire rows of the frame. *)
Theorem main_sincroniza
    (coda : nat -> peticion -> respuesta)
    (parse_datetime : list celda_fecha -> celda_fecha -> option Timestamp)
    (db : BaseDatos) (nombre_documento nombre_tabla : string) (n : nat)
    (pre : list item) (x : item) (post : list item)
    (pre' : list item) (x' : item) (post' : list item)
    (items : list item) :
  lista (coda n peticion_docs) (pre ++ x :: post) ->
  sin_coincidencia nombre_documento pre = true ->
  item_name x = nombre_documento ->
  lista (coda (S n) (peticion_tables (item_id x))) (pre' ++ x' :: post') ->
  sin_coincidencia nombre_tabla pre' = true ->
  item_name x' = nombre_tabla ->
  lista (coda (S (S n)) (peticion_rows (item_id x) (item_id x'))) items ->
  (forall k p, p_metodo p = POST -> status_code (coda k p) <> 429%Z) ->
  exists (df : DataFrame) (ev : list evento),
    obtener_obras_orm parse_datetime db = Ok df /\
    main coda parse_datetime db nombre_documento nombre_tabla n
    = (Ok tt,
       n + 3 + ceil_div (List.length items) 50 + ceil_div (List.length df) 10,
       ev) /\
    In (EvPrint (MsgObrasASincronizar (List.length df))) ev /\
    List.concat (lotes_eliminados ev) = map item_id items /\
    List.concat (lotes_subidos ev) = map wire_de (filas_dicts df).
Proof.
  intros Hl Hpre Hx Hl' Hpre' Hx' Hrows H429.
  destruct (main_traza coda parse_datetime db nombre_documento nombre_tabla n
              pre x post pre' x' post' items Hl Hpre Hx Hl' Hpre' Hx' Hrows H429)
    as [df [evp [evi [Hdf [_ [Hmain [Hids [Hsubp [_ [Hdel [Hsub _]]]]]]]]]]].
  exists df. eexists. split; [exact Hdf|]. split; [exact Hmain|]. split; [|split].
  - simpl. do 6 right. left. reflexivity.
  - unfold peticion_docs, peticion_tables, peticion_rows. simpl.
    rewrite lotes_eliminados_app, Hdel, app_nil_r. exact Hids.
  - unfold peticion_docs, peticion_tables, peticion_rows. simpl.
    rewrite lotes_subidos_app, Hsubp. exact Hsub.
Qed.

Lemma main_sincroniza_ejemplo :
  exists (df : DataFrame) (ev : list evento),
    obtener_obras_orm parse_datetime_iso db_ejemplo = Ok df /\
    main coda_homonimos parse_datetime_iso db_ejemplo "Obras" "Avance" 0
    = (Ok tt, 0 + 3 + ceil_div 2 50 + ceil_div (List.length df) 10, ev) /\
    In (EvPrint (MsgObrasASincronizar (List.length df))) ev /\
    List.concat (lotes_eliminados ev) = ["t1"; "t2"] /\
    List.concat (lotes_subidos ev) = map wire_de (filas_dicts df).
Proof.
  apply (main_sincroniza coda_homonimos parse_datetime_iso db_ejemplo "Obras" "Avance" 0
           [ {| item_id := "d0"; item_name := "obras" |} ]
           {| item_id := "d1"; item_name := "Obras" |}
           [ {| item_id := "d2"; item_name := "Obras" |} ]
           []
           {| item_id := "t1"; item_name := "Avance" |}
           [ {| item_id := "t2"; item_name := "Avance" |} ]
           [ {| item_id := "t1"; item_name := "Avance" |};
             {| item_id := "t2"; item_name := "Avance" |} ]).
  - split; [reflexivity | left; reflexivity].
  - reflexivity.
  - reflexivity.
  - split; [reflexivity | left; reflexivity].
  - reflexivity.
  - reflexivity.
  - split; [reflexivity | left; reflexivity].
  - intros k p _. simpl. discriminate.
Defined.




(** X19. The batch size is a parameter.  With a batch size of zero the
    inserter raises [ValueError] before any request.  With a batch size [b]
    above zero, when no upload is answered 429, it sends exactly ceil(N/b)
    POST requests of between 1 and [b] rows that carry, in order, the wire
    rows of the sequence. *)
Theorem insertar_filas_en_bloques_batch_size
    (coda : nat -> peticion -> respuesta) (doc_id table_id : string)
    (df : DataFrame) (batch_size n : nat) :
  0 < batch_size ->
  (forall k p, p_metodo p = POST -> status_code (coda k p) <> 429%Z) ->
  (exists ev,
     insertar_filas_en_bloques coda doc_id table_id (filas_dicts df) batch_size 5 n
     = (Ok tt, n + ceil_div (List.length df) batch_size, ev) /\
     List.length (filter (es_peticion POST) ev) = ceil_div (List.length df) batch_size /\
     Forall (fun lote : list fila_wire => 1 <= List.length lote <= batch_size)
       (lotes_subidos ev) /\
     List.concat (lotes_subidos ev) = map wire_de (filas_dicts df)) /\
  (exists msg,
     insertar_filas_en_bloques coda doc_id table_id (filas_dicts df) 0 5 n
     = (Raise (ValueError msg), n, [])).
Proof.
  intros Hb H429. split; [|eexists; reflexivity].
  destruct (por_cada_insertar_lote_sin_429 coda doc_id table_id df batch_size
              (range 0 (List.length (filas_dicts df)) batch_size) n H429)
    as [ev [Hrun [Hlotes Hcuenta]]].
  assert (Hlen : List.length (filas_dicts df) = List.length df)
    by (unfold filas_dicts; apply length_map).
  assert (Hlen' : List.length (map wire_de (filas_dicts df)) = List.length df)
    by (rewrite length_map; exact Hlen).
  exists ev. split; [|split; [|split]].
  - unfold insertar_filas_en_bloques.
    destruct (Nat.eqb_spec batch_size 0) as [He | _]; [lia|].
    rewrite Hrun, range_length, Hlen by exact Hb. reflexivity.
  - rewrite Hcuenta, range_length, Hlen by exact Hb. reflexivity.
  - rewrite Hlotes, Hlen, <- Hlen'. apply slices_acotados. exact Hb.
  - rewrite Hlotes, Hlen, <- Hlen'. apply concat_slices. exact Hb.
Qed.

Lemma insertar_filas_en_bloques_batch_size_ejemplo :
  (exists ev,
     insertar_filas_en_bloques (coda_fijo 202 []) "d" "t" (filas_dicts (df_ejemplo 25)) 7 5 0
     = (Ok tt, 0 + ceil_div (List.length (df_ejemplo 25)) 7, ev) /\
     List.length (filter (es_peticion POST) ev) = ceil_div (List.length (df_ejemplo 25)) 7 /\
     Forall (fun lote : list fila_wire => 1 <= List.length lote <= 7) (lotes_subidos ev) /\
     List.concat (lotes_subidos ev) = map wire_de (filas_dicts (df_ejemplo 25))) /\
  (exists msg,
     insertar_filas_en_bloques (coda_fijo 202 []) "d" "t" (filas_dicts (df_ejemplo 25)) 0 5 0
     = (Raise (ValueError msg), 0, [])).
Proof.
  apply (insertar_filas_en_bloques_batch_size (coda_fijo 202 []) "d" "t" (df_ejemplo 25) 7 0).
  - lia.
  - intros k p _. simpl. discriminate.
Defined.
